(** * Multi-Template-Matching: the detection pipeline of [MTM/__init__.py]

    A shallow embedding of [findMaximas], [findMatches], [matchTemplates] and
    the drawing loop of [plotDetections], followed by the properties of the
    specification that concern them.

    Conventions of the embedding:
    - Python integers are [Z]; Python and numpy floats are binary64 values
      ([PrimFloat.float]), compared with the IEEE comparisons, so that a NaN
      behaves as it does in the program.
    - Images, templates and correlation maps are two-dimensional arrays
      (grayscale), kept as the list of their rows.
    - The scikit-image routines [feature.match_template] and
      [feature.peak_local_max], and the repository's own [NMS] (whose module
      is not part of the sources at hand), are collaborators: arbitrary
      functions that may raise.  Every invocation of a scikit-image routine
      is recorded, with its arguments, in the trace of the computation. *)

From Stdlib Require Import String ZArith List Sorted Bool Lia PrimFloat.
Import ListNotations.
Local Open Scope Z_scope.

Set Implicit Arguments.
Set Warnings "-inexact-float".

(** ** Python values and exceptions *)

(** The numbers a caller may pass for [nObjects] (and that the program passes
    on as [num_peaks]): an [int] or a [float].  Values of other types
    (strings, booleans, numpy scalars) are not represented. *)
Inductive pynum : Type :=
| PyInt (z : Z)
| PyFloat (f : float).

Inductive exn : Type :=
| TypeError (msg : string)
| ValueError (msg : string)
| IndexError
| ZeroDivisionError
| CollaboratorError (msg : string).

(** [float("inf")] *)
Definition py_inf : pynum := PyFloat infinity.

(** [n == 1] *)
Definition py_eq_one (n : pynum) : bool :=
  match n with
  | PyInt z => z =? 1
  | PyFloat f => PrimFloat.eqb f 1%float
  end.

(** [n != float("inf")]: no [int] equals infinity. *)
Definition py_ne_inf (n : pynum) : bool :=
  match n with
  | PyInt _ => true
  | PyFloat f => negb (PrimFloat.eqb f infinity)
  end.

(** [type(n) != int] *)
Definition py_type_ne_int (n : pynum) : bool :=
  match n with
  | PyInt _ => false
  | PyFloat _ => true
  end.

(** [n < 1] *)
Definition py_lt_one (n : pynum) : bool :=
  match n with
  | PyInt z => z <? 1
  | PyFloat f => PrimFloat.ltb f 1%float
  end.

(** [a >= b] on floats. *)
Definition float_ge (a b : float) : bool := PrimFloat.leb b a.

(** ** Arrays, indexing and slicing *)

Definition ndarray : Type := list (list float).

(** [a.shape] of a two-dimensional array (an array with no row is given
    width 0). *)
Definition shape (a : ndarray) : nat * nat :=
  (length a, length (hd [] a)).

Definition shape_eqb (s t : nat * nat) : bool :=
  Nat.eqb (fst s) (fst t) && Nat.eqb (snd s) (snd t).

(** Resolution of one index against an axis of length [n]: a negative index
    counts from the end, anything outside [-n, n) is out of bounds. *)
Definition py_axis (n : nat) (i : Z) : option nat :=
  let len := Z.of_nat n in
  if (0 <=? i) && (i <? len) then Some (Z.to_nat i)
  else if (- len <=? i) && (i <? 0) then Some (Z.to_nat (i + len))
  else None.

(** [l[i]] on a sequence. *)
Definition py_getitem {A : Type} (l : list A) (i : Z) : exn + A :=
  match py_axis (length l) i with
  | None => inl IndexError
  | Some k =>
      match nth_error l k with
      | Some x => inr x
      | None => inl IndexError
      end
  end.

(** [a[r, c]] on a two-dimensional array. *)
Definition np_getitem2 (a : ndarray) (rc : Z * Z) : exn + float :=
  match py_getitem a (fst rc) with
  | inl e => inl e
  | inr row => py_getitem row (snd rc)
  end.

(** Bound of a slice, as [slice.indices] computes it for step 1. *)
Definition slice_bound (n : nat) (i : Z) : Z :=
  let len := Z.of_nat n in
  if i <? 0 then Z.max (i + len) 0 else Z.min i len.

(** [l[start:stop]] *)
Definition py_slice {A : Type} (start stop : Z) (l : list A) : list A :=
  let s := slice_bound (length l) start in
  let e := slice_bound (length l) stop in
  firstn (Z.to_nat (e - s)) (skipn (Z.to_nat s) l).

(** [a[r0:r1, c0:c1]] *)
Definition np_slice2 (r0 r1 c0 c1 : Z) (a : ndarray) : ndarray :=
  map (py_slice c0 c1) (py_slice r0 r1 a).

Fixpoint enumerate_from {A : Type} (n : nat) (l : list A) : list (nat * A) :=
  match l with
  | [] => []
  | x :: l' => (n, x) :: enumerate_from (S n) l'
  end.

(** [enumerate(l)] *)
Definition enumerate {A : Type} (l : list A) : list (nat * A) :=
  enumerate_from 0 l.

(** ** Detections *)

(** Modelled from the spec: the [BoundingBox] class of [MTM/Detection.py] is
    not among the sources; a detection is the immutable value the
    specification describes, holding what the constructor call
    [BoundingBox(bbox, score, index, label)] is given: the box
    [(x, y, width, height)], the score, the template index and the label. *)
Record BoundingBox : Type := mkBoundingBox {
  get_xywh : Z * Z * Z * Z;
  get_score : float;
  get_template_index : Z;
  get_label : string
}.

(** ** Collaborators and the computation monad *)

(** One invocation of a scikit-image routine, with its arguments. *)
Inductive call : Type :=
| CallMatchTemplate (image template : ndarray)
| CallPeakLocalMax (corrMap : ndarray) (threshold_abs : float)
                   (exclude_border : bool) (num_peaks : pynum).

Class Collaborators : Type := {
  (** [skimage.feature.match_template(image, template)] *)
  match_template : ndarray -> ndarray -> exn + ndarray;
  (** [skimage.feature.peak_local_max(corrMap, threshold_abs=..,
      exclude_border=.., num_peaks=..).tolist()] *)
  peak_local_max : ndarray -> float -> bool -> pynum -> exn + list (Z * Z);
  (** [MTM.NMS.NMS(listHit, maxOverlap, nObjects)] *)
  NMS : list BoundingBox -> float -> pynum -> exn + list BoundingBox
}.

(** A computation yields the trace of the scikit-image calls it made and
    either the exception it raised or its value. *)
Definition M (A : Type) : Type := list call * (exn + A).

Definition ret {A : Type} (a : A) : M A := ([], inr a).

Definition raise {A : Type} (e : exn) : M A := ([], inl e).

Definition bind {A B : Type} (m : M A) (k : A -> M B) : M B :=
  match snd m with
  | inl e => (fst m, inl e)
  | inr a => (fst m ++ fst (k a), snd (k a))
  end.

Notation "x <- m ;; k" := (bind m (fun x => k))
  (at level 61, m at next level, right associativity).

(** A pure operation that may raise. *)
Definition lift {A : Type} (r : exn + A) : M A := ([], r).

Definition call_match_template `{Collaborators} (image template : ndarray)
  : M ndarray :=
  ([CallMatchTemplate image template], match_template image template).

Definition call_peak_local_max `{Collaborators} (corrMap : ndarray)
  (threshold_abs : float) (exclude_border : bool) (num_peaks : pynum)
  : M (list (Z * Z)) :=
  ([CallPeakLocalMax corrMap threshold_abs exclude_border num_peaks],
   peak_local_max corrMap threshold_abs exclude_border num_peaks).

(** [for x in l: s = body(x, s)] *)
Fixpoint for_each {A S : Type} (l : list A) (body : A -> S -> M S) (s : S)
  : M S :=
  match l with
  | [] => ret s
  | x :: l' => s' <- body x s ;; for_each l' body s'
  end.

(** ** The program *)

Section Program.
Context `{Collaborators}.

Definition findMaximas (corrMap : ndarray) (score_threshold : float)
  (nObjects : pynum) : M (list (Z * Z)) :=
  if shape_eqb (shape corrMap) (1%nat, 1%nat) then
    v <- lift (np_getitem2 corrMap (0, 0)) ;;
    ret (if float_ge v score_threshold then [(0, 0)] else [])
  else
    let nPeaks := if py_eq_one nObjects then PyInt 1 else py_inf in
    call_peak_local_max corrMap score_threshold false nPeaks.

(** The image searched and the offset of its origin:
    [image[yOffset:yOffset+searchHeight, xOffset:xOffset+searchWidth]] when a
    search box is given. *)
Definition crop_to_searchBox (image : ndarray)
  (searchBox : option (Z * Z * Z * Z)) : Z * Z * ndarray :=
  match searchBox with
  | Some (xOffset, yOffset, searchWidth, searchHeight) =>
      (xOffset, yOffset,
       np_slice2 yOffset (yOffset + searchHeight)
                 xOffset (xOffset + searchWidth) image)
  | None => (0, 0, image)
  end.

(** The body of the loop over the peaks of one template. *)
Definition append_hit (corrMap : ndarray) (xOffset yOffset width height : Z)
  (index : nat) (label : string) (peak : Z * Z) (listHit : list BoundingBox)
  : M (list BoundingBox) :=
  score <- lift (np_getitem2 corrMap peak) ;;
  let bbox := (snd peak + xOffset, fst peak + yOffset, width, height) in
  let hit := mkBoundingBox bbox score (Z.of_nat index) label in
  ret (listHit ++ [hit]).

(** The body of the loop over the templates. *)
Definition search_template (image : ndarray) (listLabels : option (list string))
  (score_threshold : float) (nObjects : pynum) (xOffset yOffset : Z)
  (it : nat * ndarray) (listHit : list BoundingBox) : M (list BoundingBox) :=
  let (index, template) := it in
  corrMap <- call_match_template image template ;;
  listPeaks <- findMaximas corrMap score_threshold nObjects ;;
  let (height, width) := shape template in
  label <- match listLabels with
           | Some ((_ :: _) as labels) => lift (py_getitem labels (Z.of_nat index))
           | _ => ret EmptyString
           end ;;
  for_each listPeaks
    (append_hit corrMap xOffset yOffset (Z.of_nat width) (Z.of_nat height)
                index label)
    listHit.

Definition findMatches (image : ndarray) (listTemplates : list ndarray)
  (listLabels : option (list string)) (score_threshold : float)
  (nObjects : pynum) (searchBox : option (Z * Z * Z * Z))
  : M (list BoundingBox) :=
  if py_ne_inf nObjects && py_type_ne_int nObjects then
    raise (TypeError "nObjects must be an integer")
  else if py_lt_one nObjects then
    raise (ValueError "At least one object should be expected in the image")
  else if match listLabels with
          | Some labels =>
              negb (Nat.eqb (length listTemplates) (length labels))
          | None => false
          end then
    raise (ValueError "There must be one label per template.")
  else
    let '(xOffset, yOffset, image) := crop_to_searchBox image searchBox in
    for_each (enumerate listTemplates)
      (search_template image listLabels score_threshold nObjects
                       xOffset yOffset)
      [].

Definition matchTemplates (image : ndarray) (listTemplates : list ndarray)
  (listLabels : option (list string)) (score_threshold maxOverlap : float)
  (nObjects : pynum) (searchBox : option (Z * Z * Z * Z))
  : M (list BoundingBox) :=
  if PrimFloat.ltb maxOverlap 0%float || PrimFloat.ltb 1%float maxOverlap then
    raise (ValueError "Maximal overlap between bounding box is in range [0-1]")
  else
    listHit <- findMatches image listTemplates listLabels score_threshold
                           nObjects searchBox ;;
    bestHits <- lift (NMS listHit maxOverlap nObjects) ;;
    ret bestHits.

End Program.

(** ** Drawing the detections *)

(** [a % b] on integers; the result has the sign of [b], as [Z.modulo]. *)
Definition py_mod (a b : Z) : exn + Z :=
  if b =? 0 then inl ZeroDivisionError else inr (a mod b).

(** [d[k] = v] on a dictionary, kept in insertion order. *)
Fixpoint dict_set {V : Type} (k : string) (v : V) (d : list (string * V))
  : list (string * V) :=
  match d with
  | [] => [(k, v)]
  | (k', v') :: d' =>
      if String.eqb k' k then (k', v) :: d' else (k', v') :: dict_set k v d'
  end.

(** One call of [plt.plot]: the outline, [linewidth] and [color]. *)
Record plot_call (outline color : Type) : Type := mkPlot {
  plot_xy : outline;
  plot_linewidth : Z;
  plot_color : color
}.

(** What [plotDetections] leaves on the figure: the image shown, the
    outlines drawn, the legend when one is added, and whether the
    missing-label warning was issued. *)
Record figure (outline color : Type) : Type := mkFigure {
  fig_image : ndarray;
  fig_lines : list (plot_call outline color);
  fig_legend : option (list (string * color));
  fig_warned : bool
}.

Section Plot.
Variables outline color : Type.
(** [plt.cm.Set3.colors] *)
Variable palette : list color.
(** The [get_lists_xy] method of a detection (its class is not among the
    sources): the corner coordinates of its rectangle. *)
Variable get_lists_xy : BoundingBox -> outline.

(** The body of the loop over the detections; the state is the lines drawn
    so far and [mapLabelColor]. *)
Definition plot_detection (thickness : Z) (showLegend : bool)
  (detection : BoundingBox)
  (st : list (plot_call outline color) * list (string * color))
  : M (list (plot_call outline color) * list (string * color)) :=
  let nColors := Z.of_nat (length palette) in
  colorIndex <- lift (py_mod (get_template_index detection) nColors) ;;
  color <- lift (py_getitem palette colorIndex) ;;
  let lines := fst st ++ [mkPlot (get_lists_xy detection) thickness color] in
  if showLegend then
    let label := get_label detection in
    if negb (String.eqb label "")
    then ret (lines, dict_set label color (snd st))
    else ret (lines, snd st)
  else ret (lines, snd st).

Definition plotDetections (image : ndarray)
  (listDetections : list BoundingBox) (thickness : Z) (showLegend : bool)
  : M (figure outline color) :=
  st <- for_each listDetections (plot_detection thickness showLegend)
                 ([], []) ;;
  if showLegend then
    match snd st with
    | [] => ret (mkFigure image (fst st) None true)
    | mapLabelColor =>
        ret (mkFigure image (fst st) (Some mapLabelColor) false)
    end
  else ret (mkFigure image (fst st) None false).

(** What one drawn line owes to its detection: the outline, the thickness,
    and the color of the palette at the template index modulo the number of
    colors. *)
Definition drawn (thickness : Z) (d : BoundingBox)
  (line : plot_call outline color) : Prop :=
  plot_xy line = get_lists_xy d /\
  plot_linewidth line = thickness /\
  nth_error palette
    (Z.to_nat (get_template_index d mod Z.of_nat (length palette)))
  = Some (plot_color line).

End Plot.

(** ** Notions used to state the properties *)

(** The elements of [l] whose position lies in [lo, hi), in order. *)
Definition select_range {A : Type} (lo hi : Z) (l : list A) : list A :=
  map snd
      (filter (fun it => (lo <=? Z.of_nat (fst it))
                         && (Z.of_nat (fst it) <? hi))
              (enumerate l)).

(** The intersection of the rectangle [(x, y, w, h)] with the image: the
    pixels of the image at a row in [y, y+h) and a column in [x, x+w). *)
Definition box_intersection (image : ndarray) (box : Z * Z * Z * Z)
  : ndarray :=
  let '(x, y, w, h) := box in
  map (select_range x (x + w)) (select_range y (y + h) image).

(** A detection moved by [(dx, dy)]. *)
Definition translate (dx dy : Z) (d : BoundingBox) : BoundingBox :=
  let '(x, y, w, h) := get_xywh d in
  mkBoundingBox (x + dx, y + dy, w, h) (get_score d) (get_template_index d)
                (get_label d).

(** The value of a computation transformed, its trace and exception kept. *)
Definition map_value {A B : Type} (f : A -> B) (m : M A) : M B :=
  (fst m, match snd m with inl e => inl e | inr a => inr (f a) end).

(** The label the caller associated with template [index]. *)
Definition label_of (listLabels : option (list string)) (index : nat) : string :=
  match listLabels with
  | Some labels => nth index labels EmptyString
  | None => EmptyString
  end.

(** [d] is the detection of template number [index], of the given size, at
    the peak [peak] of the correlation map [corrMap], in an image whose
    origin lies at [(xOffset, yOffset)]. *)
Definition is_hit (corrMap : ndarray) (xOffset yOffset width height : Z)
  (index : nat) (label : string) (peak : Z * Z) (d : BoundingBox) : Prop :=
  get_xywh d = (snd peak + xOffset, fst peak + yOffset, width, height) /\
  np_getitem2 corrMap peak = inr (get_score d) /\
  get_template_index d = Z.of_nat index /\
  get_label d = label.

(** [hits] are the detections of one template, one per peak that peak
    extraction returned on its correlation map, in the order of the peaks. *)
Definition template_hits `{Collaborators} (image : ndarray)
  (listLabels : option (list string)) (score_threshold : float)
  (nObjects : pynum) (xOffset yOffset : Z) (it : nat * ndarray)
  (hits : list BoundingBox) : Prop :=
  exists corrMap listPeaks,
    match_template image (snd it) = inr corrMap /\
    snd (findMaximas corrMap score_threshold nObjects) = inr listPeaks /\
    Forall2 (is_hit corrMap xOffset yOffset
                    (Z.of_nat (snd (shape (snd it))))
                    (Z.of_nat (fst (shape (snd it))))
                    (fst it) (label_of listLabels (fst it)))
            listPeaks hits.

(** The argument checks of the pipeline. *)
Inductive check : Type :=
| CheckCountType      (* objectCount is an integer or the unbounded sentinel *)
| CheckCountPositive  (* objectCount >= 1 *)
| CheckLabelArity     (* one label per template, when labels are given *)
| CheckOverlapRange.  (* maxOverlap within [0, 1] *)

(** The exception a check raises on the arguments that fail it. *)
Definition violation (c : check) (listTemplates : list ndarray)
  (listLabels : option (list string)) (maxOverlap : float) (nObjects : pynum)
  : option exn :=
  match c with
  | CheckCountType =>
      if py_ne_inf nObjects && py_type_ne_int nObjects
      then Some (TypeError "nObjects must be an integer") else None
  | CheckCountPositive =>
      if py_lt_one nObjects
      then Some (ValueError "At least one object should be expected in the image")
      else None
  | CheckLabelArity =>
      match listLabels with
      | Some labels =>
          if Nat.eqb (length listTemplates) (length labels) then None
          else Some (ValueError "There must be one label per template.")
      | None => None
      end
  | CheckOverlapRange =>
      if PrimFloat.ltb maxOverlap 0%float || PrimFloat.ltb 1%float maxOverlap
      then Some (ValueError "Maximal overlap between bounding box is in range [0-1]")
      else None
  end.

(** The exception of the first check, in the given order, that fails. *)
Fixpoint first_violation (order : list check) (listTemplates : list ndarray)
  (listLabels : option (list string)) (maxOverlap : float) (nObjects : pynum)
  : option exn :=
  match order with
  | [] => None
  | c :: order' =>
      match violation c listTemplates listLabels maxOverlap nObjects with
      | Some e => Some e
      | None =>
          first_violation order' listTemplates listLabels maxOverlap nObjects
      end
  end.



(** An exception that reports an invalid argument. *)
Definition invalid_argument (e : exn) : Prop :=
  match e with
  | TypeError _ | ValueError _ => True
  | _ => False
  end.

(** [nObjects] as the pipeline accepts it: a positive integer or infinity. *)
Definition valid_nObjects (nObjects : pynum) : Prop :=
  nObjects = py_inf \/ exists z, nObjects = PyInt z /\ 1 <= z.

(** The arguments the pipeline rejects: a count that is a float other than
    infinity, or an integer below 1; labels whose number differs from the
    number of templates; an overlap below 0 or above 1. *)
Definition invalid_arguments (listTemplates : list ndarray)
  (listLabels : option (list string)) (maxOverlap : float) (nObjects : pynum)
  : Prop :=
  (exists f, nObjects = PyFloat f /\ PrimFloat.eqb f infinity = false) \/
  (exists z, nObjects = PyInt z /\ z < 1) \/
  (exists labels, listLabels = Some labels /\
                  length listTemplates <> length labels) \/
  PrimFloat.ltb maxOverlap 0%float = true \/
  PrimFloat.ltb 1%float maxOverlap = true.

(** ** Notions about the calls made and the figure drawn *)

(** The number of peaks [findMaximas] asks of the peak search. *)
Definition requested_peaks (nObjects : pynum) : pynum :=
  if py_eq_one nObjects then PyInt 1 else py_inf.

(** The correlations of a trace: the (image, template) pairs handed to
    [match_template], in order. *)
Definition correlations (trace : list call) : list (ndarray * ndarray) :=
  flat_map (fun c => match c with
                     | CallMatchTemplate image template => [(image, template)]
                     | CallPeakLocalMax _ _ _ _ => []
                     end) trace.

(** The calls that the search of one template makes: the correlation, then a
    peak search unless the correlation failed or gave a 1x1 map. *)
Definition template_calls `{Collaborators} (image : ndarray)
  (score_threshold : float) (nObjects : pynum) (template : ndarray)
  : list call :=
  CallMatchTemplate image template ::
  match match_template image template with
  | inl _ => []
  | inr corrMap =>
      if shape_eqb (shape corrMap) (1%nat, 1%nat) then []
      else [CallPeakLocalMax corrMap score_threshold false
                             (requested_peaks nObjects)]
  end.

(** The peaks found for one template (none when a collaborator raises). *)
Definition peaks_of `{Collaborators} (image : ndarray)
  (score_threshold : float) (nObjects : pynum) (template : ndarray)
  : list (Z * Z) :=
  match match_template image template with
  | inl _ => []
  | inr corrMap =>
      match snd (findMaximas corrMap score_threshold nObjects) with
      | inl _ => []
      | inr listPeaks => listPeaks
      end
  end.

(** [d.get(k)] on a dictionary. *)
Fixpoint dict_get {V : Type} (k : string) (d : list (string * V)) : option V :=
  match d with
  | [] => None
  | (k', v) :: d' => if String.eqb k' k then Some v else dict_get k d'
  end.

(** The last detection of the list that carries the label [l]. *)
Definition last_labelled (l : string) (listDetections : list BoundingBox)
  : option BoundingBox :=
  find (fun d => String.eqb (get_label d) l) (rev listDetections).

(** The color of the palette at the template index of [d] modulo the number
    of colors. *)
Definition palette_color {color : Type} (palette : list color)
  (d : BoundingBox) : option color :=
  nth_error palette
    (Z.to_nat (get_template_index d mod Z.of_nat (length palette))).

(** A detection whose template index is moved up by [k]. *)
Definition reindex (k : nat) (d : BoundingBox) : BoundingBox :=
  mkBoundingBox (get_xywh d) (get_score d)
                (get_template_index d + Z.of_nat k) (get_label d).

(** ** Concrete collaborators, for running the program on examples *)

Definition constant_array (rows cols : nat) (v : float) : ndarray :=
  repeat (repeat v cols) rows.

(** An 8x8 correlation map, flat at 0.1 except for the value 0.9 at row 5,
    column 5. *)
Definition demo_surface : ndarray :=
  map (fun r => map (fun c => if (r =? 5) && (c =? 5) then 0.9%float
                              else 0.1%float)
                    [0; 1; 2; 3; 4; 5; 6; 7])
      [0; 1; 2; 3; 4; 5; 6; 7].

(** Collaborators that answer every correlation with [demo_surface], every
    peak search with its peak at (5, 5), and suppress nothing. *)
Definition demo_collaborators : Collaborators := {|
  match_template := fun _ _ => inr demo_surface;
  peak_local_max := fun _ _ _ _ => inr [(5, 5)];
  NMS := fun listHit _ _ => inr listHit
|}.

(** Collaborators whose peak search returns the two peaks (1, 2) and (0, 3)
    of a 2x4 correlation map that repeats the first row of the template. *)
Definition echo_collaborators : Collaborators := {|
  match_template := fun _ template => inr [hd [] template; hd [] template];
  peak_local_max := fun _ _ _ _ => inr [(1, 2); (0, 3)];
  NMS := fun listHit _ _ => inr listHit
|}.

(** Collaborators whose correlation, as that of scikit-image, refuses a
    template with more rows than the image. *)
Definition strict_collaborators : Collaborators := {|
  match_template := fun image template =>
    if (length image <? length template)%nat
    then inl (ValueError "Image must be larger than template.")
    else inr [hd [] template; hd [] template];
  peak_local_max := fun _ _ _ _ => inr [(1, 2); (0, 3)];
  NMS := fun listHit _ _ => inr listHit
|}.

(** Collaborators for templates as large as the image: the correlation is
    the single value found in the first pixel of the template. *)
Definition scalar_collaborators : Collaborators := {|
  match_template := fun _ template => inr [[hd 0%float (hd [] template)]];
  peak_local_max := fun _ _ _ _ => inr [];
  NMS := fun listHit _ _ => inr listHit
|}.

(** * Properties *)

(** ** The computation monad *)

Lemma bind_ret_l {A B : Type} (a : A) (k : A -> M B) : bind (ret a) k = k a.
Proof. unfold bind, ret; simpl. now destruct (k a). Qed.

Lemma bind_raise_l {A B : Type} (e : exn) (k : A -> M B) :
  bind (raise e) k = raise e.
Proof. reflexivity. Qed.

Lemma bind_lift_inr {A B : Type} (a : A) (k : A -> M B) :
  bind (lift (inr a)) k = k a.
Proof. exact (bind_ret_l a k). Qed.

Lemma bind_lift_inl {A B : Type} (e : exn) (k : A -> M B) :
  bind (lift (inl e)) k = raise e.
Proof. reflexivity. Qed.

Lemma map_value_bind {A B C : Type} (f : B -> C) (m : M A) (k : A -> M B) :
  map_value f (bind m k) = bind m (fun a => map_value f (k a)).
Proof.
  destruct m as [t1 [e | a]]; unfold bind, map_value; simpl; reflexivity.
Qed.

(** ** Arrays *)

Lemma shape_eqb_spec s t : shape_eqb s t = true <-> s = t.
Proof.
  destruct s as [a b], t as [c d]; unfold shape_eqb; simpl.
  rewrite andb_true_iff, !Nat.eqb_eq. split.
  - intros [-> ->]; reflexivity.
  - intros E; inversion E; auto.
Qed.

Lemma shape_eqb_neq s t : s <> t -> shape_eqb s t = false.
Proof.
  intros N. destruct (shape_eqb s t) eqn:E; [|reflexivity].
  apply shape_eqb_spec in E. contradiction.
Qed.

(** The arrays of shape (1, 1) are the arrays [[v]]. *)
Lemma shape_single_cell (a : ndarray) :
  shape a = (1%nat, 1%nat) <-> exists v, a = [[v]].
Proof.
  split.
  - destruct a as [|[|v [|w r]] [|r' a]]; unfold shape; simpl; intros E;
      try discriminate. now exists v.
  - intros [v ->]. reflexivity.
Qed.

Section Properties.
Context {skimage : Collaborators}.

(** ** Peak extraction *)

(** C2. On a 1x1 correlation map [findMaximas] returns the single coordinate
    (0, 0) when the map's value is at least [score_threshold] and nothing
    otherwise, whatever [nObjects] is, without calling the peak search; so
    the value 0.9 gives [(0, 0)] against the threshold 0.6 and nothing
    against 0.95. *)
Theorem findMaximas_single_cell :
  (forall v score_threshold nObjects,
      findMaximas [[v]] score_threshold nObjects
      = ret (if float_ge v score_threshold then [(0, 0)] else [])) /\
  (forall nObjects,
      findMaximas [[0.9%float]] 0.6%float nObjects = ret [(0, 0)]) /\
  (forall nObjects,
      findMaximas [[0.9%float]] 0.95%float nObjects = ret []).
Proof.
  assert (G : forall v score_threshold nObjects,
             findMaximas [[v]] score_threshold nObjects
             = ret (if float_ge v score_threshold then [(0, 0)] else [])).
  { intros v thr n. unfold findMaximas. simpl shape_eqb. cbv iota.
    change (np_getitem2 [[v]] (0, 0)) with (@inr exn float v).
    now rewrite bind_lift_inr. }
  split; [exact G|]. split; intros n; rewrite G; reflexivity.
Qed.

(** C1. With [nObjects = 1] the threshold still applies inside peak
    extraction: on the 1x1 map of value 0.3 and the threshold 0.6
    [findMaximas] returns no peak, although (0, 0) is the global maximum of
    the map; and on a larger map the threshold is handed unchanged to the
    peak search as [threshold_abs], together with [num_peaks = 1]. *)
Theorem findMaximas_single_object_keeps_threshold :
  findMaximas [[0.3%float]] 0.6%float (PyInt 1) = ret [] /\
  fst (findMaximas [[0.1; 0.2]; [0.3; 0.2]]%float 0.6%float (PyInt 1))
  = [CallPeakLocalMax [[0.1; 0.2]; [0.3; 0.2]]%float 0.6%float false (PyInt 1)].
Proof. split; reflexivity. Qed.

(** C6. On a correlation map whose shape is not (1, 1), [findMaximas] makes
    exactly one peak search, on that map, with the caller's threshold and
    without border exclusion; the number of peaks it asks for is 1 when
    [nObjects] is 1 and infinity for every other [nObjects], so for an
    integer [nObjects > 1] it is never [nObjects]. *)
Theorem findMaximas_peak_count corrMap score_threshold nObjects :
  shape corrMap <> (1%nat, 1%nat) ->
  exists num_peaks,
    findMaximas corrMap score_threshold nObjects
    = ([CallPeakLocalMax corrMap score_threshold false num_peaks],
       peak_local_max corrMap score_threshold false num_peaks) /\
    (nObjects = PyInt 1 -> num_peaks = PyInt 1) /\
    (py_eq_one nObjects = false -> num_peaks = py_inf) /\
    (forall z, nObjects = PyInt z -> 1 < z ->
               num_peaks = py_inf /\ num_peaks <> PyInt z).
Proof.
  intros Hs. unfold findMaximas. rewrite (shape_eqb_neq Hs).
  exists (if py_eq_one nObjects then PyInt 1 else py_inf).
  split; [reflexivity|]. split; [|split].
  - intros ->. reflexivity.
  - intros ->. reflexivity.
  - intros z -> Hz. simpl. destruct (Z.eqb_spec z 1); [lia|].
    split; [reflexivity | discriminate].
Qed.

(** ** Argument validation *)

(** When one of its checks fails, [findMatches] raises the exception of the
    first failing one, in the order type, positivity, labels, and calls no
    scikit-image routine. *)
Lemma findMatches_validation image listTemplates listLabels score_threshold
      maxOverlap nObjects searchBox e :
  first_violation [CheckCountType; CheckCountPositive; CheckLabelArity]
                  listTemplates listLabels maxOverlap nObjects = Some e ->
  findMatches image listTemplates listLabels score_threshold nObjects searchBox
  = raise e.
Proof.
  unfold findMatches, first_violation, violation.
  destruct (py_ne_inf nObjects && py_type_ne_int nObjects).
  { intros E; inversion E; reflexivity. }
  destruct (py_lt_one nObjects).
  { intros E; inversion E; reflexivity. }
  destruct listLabels as [labels|]; [|discriminate].
  destruct (Nat.eqb (length listTemplates) (length labels)); [discriminate|].
  intros E; inversion E; reflexivity.
Qed.


(** The arguments that the checks catch ([nObjects] a float other than
    infinity, or an integer below 1; a number of labels different from the
    number of templates; [maxOverlap] below 0 or above 1) make
    [matchTemplates] raise an invalid-argument exception with an empty
    trace: no correlation and no peak search has been run.  A NaN
    [maxOverlap] is not among them, see
    [matchTemplates_nan_overlap_accepted]. *)
Theorem matchTemplates_fails_fast image listTemplates listLabels
        score_threshold maxOverlap nObjects searchBox :
  invalid_arguments listTemplates listLabels maxOverlap nObjects ->
  exists e,
    matchTemplates image listTemplates listLabels score_threshold maxOverlap
                   nObjects searchBox = ([], inl e) /\
    invalid_argument e.
Proof.
  intros Hinv. unfold matchTemplates.
  destruct (PrimFloat.ltb maxOverlap 0 || PrimFloat.ltb 1 maxOverlap)%float
    eqn:Eo.
  { eexists. split; [reflexivity | exact I]. }
  assert (V : exists e,
             first_violation
               [CheckCountType; CheckCountPositive; CheckLabelArity]
               listTemplates listLabels maxOverlap nObjects = Some e /\
             invalid_argument e).
  { cbn [first_violation]. unfold violation.
    destruct (py_ne_inf nObjects && py_type_ne_int nObjects) eqn:Et;
      [eexists; split; [reflexivity | exact I]|].
    destruct (py_lt_one nObjects) eqn:Ep;
      [eexists; split; [reflexivity | exact I]|].
    destruct Hinv as [(f & -> & Hf) | [(z & -> & Hz) |
                      [(labels & -> & Hl) | Ho]]].
    - simpl in Et. rewrite Hf in Et. discriminate.
    - simpl in Ep. apply Z.ltb_ge in Ep. lia.
    - destruct (Nat.eqb_spec (length listTemplates) (length labels)) as [E|N];
        [contradiction | eexists; split; [reflexivity | exact I]].
    - apply orb_false_iff in Eo. destruct Eo as [E0 E1].
      destruct Ho; congruence. }
  destruct V as (e & Hv & He). exists e. split; [|exact He].
  rewrite (findMatches_validation image listTemplates listLabels
             score_threshold maxOverlap nObjects searchBox Hv).
  reflexivity.
Qed.

(** C10. With no template, and labels absent or empty, [findMatches] returns
    the empty pool for every image, threshold, valid [nObjects] and search
    box, and its trace is empty: the correlation is never computed. *)
Theorem findMatches_no_template image listLabels score_threshold nObjects
        searchBox :
  valid_nObjects nObjects ->
  listLabels = None \/ listLabels = Some [] ->
  findMatches image [] listLabels score_threshold nObjects searchBox
  = ([], inr []).
Proof.
  intros Hn Hl. unfold findMatches.
  assert (Ht : py_ne_inf nObjects && py_type_ne_int nObjects = false).
  { destruct Hn as [-> | (z & -> & _)]; reflexivity. }
  assert (Hp : py_lt_one nObjects = false).
  { destruct Hn as [-> | (z & -> & Hz)]; [reflexivity|].
    simpl. apply Z.ltb_ge. lia. }
  rewrite Ht, Hp.
  destruct (crop_to_searchBox image searchBox) as [[xOffset yOffset] image'].
  destruct Hl as [-> | ->]; reflexivity.
Qed.

(** ** The candidate pool *)

Lemma snd_bind {A B : Type} (m : M A) (k : A -> M B) :
  snd (bind m k) = match snd m with inl e => inl e | inr a => snd (k a) end.
Proof. unfold bind. now destruct (snd m). Qed.

Lemma py_getitem_of_nat {A : Type} (l : list A) (i : nat) (x : A) :
  py_getitem l (Z.of_nat i) = inr x <-> nth_error l i = Some x.
Proof.
  unfold py_getitem, py_axis.
  destruct (Z.leb_spec 0 (Z.of_nat i)); [|lia].
  destruct (Z.ltb_spec (Z.of_nat i) (Z.of_nat (length l))); simpl.
  - rewrite Nat2Z.id. destruct (nth_error l i); split; congruence.
  - destruct (Z.ltb_spec (Z.of_nat i) 0); [lia|].
    rewrite andb_false_r.
    assert (N : nth_error l i = None) by (apply nth_error_None; lia).
    rewrite N. split; discriminate.
Qed.

Lemma is_hit_unique corrMap xOffset yOffset width height index label peak d :
  is_hit corrMap xOffset yOffset width height index label peak d ->
  forall score, np_getitem2 corrMap peak = inr score ->
  d = mkBoundingBox (snd peak + xOffset, fst peak + yOffset, width, height)
                    score (Z.of_nat index) label.
Proof.
  intros (Hb & Hs & Hi & Hl) score E. destruct d; simpl in *.
  rewrite Hs in E. inversion E. congruence.
Qed.

(** The loop over the peaks of one template returns exactly when every peak
    lies on the correlation map; it then appends one detection per peak, in
    the order of the peaks, and calls no scikit-image routine. *)
Lemma append_hits_returns corrMap xOffset yOffset width height index label
      listPeaks :
  forall listHit t pool,
    for_each listPeaks
      (append_hit corrMap xOffset yOffset width height index label) listHit
    = (t, inr pool) <->
    t = [] /\
    exists hits,
      pool = listHit ++ hits /\
      Forall2 (is_hit corrMap xOffset yOffset width height index label)
              listPeaks hits.
Proof.
  induction listPeaks as [|peak listPeaks IH]; intros listHit t pool.
  - cbn [for_each]. unfold ret. split.
    + intros E; inversion E; subst. split; [reflexivity|].
      exists []. rewrite app_nil_r. split; [reflexivity | constructor].
    + intros (-> & hits & -> & F). inversion F; subst.
      now rewrite app_nil_r.
  - cbn [for_each]. unfold append_hit at 1.
    destruct (np_getitem2 corrMap peak) as [e | score] eqn:Es.
    + rewrite bind_lift_inl, bind_raise_l. split; [discriminate|].
      intros (_ & hits & _ & F). inversion F as [|? d ? ? Hd]; subst.
      destruct Hd as (_ & Hs & _). congruence.
    + rewrite bind_lift_inr, bind_ret_l, IH. split.
      * intros (-> & hits & -> & F). split; [reflexivity|].
        eexists (_ :: hits). rewrite <- app_assoc. split; [reflexivity|].
        constructor; [|exact F]. repeat split; assumption.
      * intros (-> & hits & -> & F). split; [reflexivity|].
        inversion F as [|? d ? hits' Hd F']; subst.
        exists hits'. rewrite (is_hit_unique Hd Es), <- app_assoc.
        split; [reflexivity | exact F'].
Qed.

(** The loop body for one template returns exactly when the correlation and
    the peak extraction return and every peak lies on the map; it then
    appends the detections of that template. *)
Lemma search_template_returns image listLabels score_threshold nObjects
      xOffset yOffset index template listHit pool :
  (forall labels, listLabels = Some labels -> (index < length labels)%nat) ->
  snd (search_template image listLabels score_threshold nObjects
                       xOffset yOffset (index, template) listHit) = inr pool
  <->
  exists hits,
    pool = listHit ++ hits /\
    template_hits image listLabels score_threshold nObjects xOffset yOffset
                  (index, template) hits.
Proof.
  intros Hlab. unfold search_template, template_hits, call_match_template.
  cbn [fst snd].
  assert (Hl : match listLabels with
               | Some ((_ :: _) as labels) =>
                   lift (py_getitem labels (Z.of_nat index))
               | _ => ret EmptyString
               end = ret (label_of listLabels index)).
  { destruct listLabels as [[|l0 labels]|]; unfold label_of; try reflexivity.
    - now destruct index.
    - specialize (Hlab _ eq_refl).
      destruct (nth_error (l0 :: labels) index) as [l|] eqn:En.
      + rewrite (proj2 (py_getitem_of_nat _ _ _) En).
        now rewrite (nth_error_nth _ _ EmptyString En).
      + apply nth_error_None in En. lia. }
  rewrite snd_bind. cbn [snd].
  destruct (match_template image template) as [e | corrMap] eqn:Em.
  { split; [discriminate|].
    intros (hits & _ & cm & pk & E & _). discriminate. }
  rewrite snd_bind.
  destruct (snd (findMaximas corrMap score_threshold nObjects))
    as [e | listPeaks] eqn:Ef.
  { split; [discriminate|].
    intros (hits & _ & cm & pk & E & E' & _).
    inversion E; subst. rewrite Ef in E'. discriminate. }
  destruct (shape template) as [height width] eqn:Esh. cbn [fst snd].
  rewrite Hl, bind_ret_l.
  destruct (for_each listPeaks
              (append_hit corrMap xOffset yOffset (Z.of_nat width)
                 (Z.of_nat height) index (label_of listLabels index)) listHit)
    as [tl rl] eqn:El. cbn [snd].
  split.
  - intros ->. apply append_hits_returns in El.
    destruct El as (_ & hits & -> & F).
    exists hits. split; [reflexivity|].
    exists corrMap, listPeaks. repeat split; assumption.
  - intros (hits & -> & cm & pk & E & E' & F).
    inversion E; subst cm. rewrite Ef in E'. inversion E'; subst pk.
    assert (G : (tl, rl) = ([], inr (listHit ++ hits))).
    { rewrite <- El. apply append_hits_returns.
      split; [reflexivity|]. exists hits. split; [reflexivity | exact F]. }
    now inversion G.
Qed.

(** The loop over the templates returns exactly when the body returns for
    every template; the pool is then the detections of the templates, one
    block per template, in the order of the list. *)
Lemma search_templates_returns image listLabels score_threshold nObjects
      xOffset yOffset listTemplates :
  forall k listHit pool,
    (forall labels, listLabels = Some labels ->
                    (k + length listTemplates <= length labels)%nat) ->
    snd (for_each (enumerate_from k listTemplates)
           (search_template image listLabels score_threshold nObjects
                            xOffset yOffset) listHit) = inr pool
    <->
    exists hitss,
      pool = listHit ++ concat hitss /\
      Forall2 (template_hits image listLabels score_threshold nObjects
                             xOffset yOffset)
              (enumerate_from k listTemplates) hitss.
Proof.
  induction listTemplates as [|template listTemplates IH];
    intros k listHit pool Hlab.
  - cbn [enumerate_from for_each ret snd]. split.
    + intros E; inversion E; subst. exists []. simpl.
      rewrite app_nil_r. split; [reflexivity | constructor].
    + intros (hitss & -> & F). inversion F; subst. simpl.
      now rewrite app_nil_r.
  - cbn [enumerate_from for_each]. rewrite snd_bind.
    assert (Hk : forall labels, listLabels = Some labels ->
                                (k < length labels)%nat).
    { intros labels E. specialize (Hlab labels E). simpl in Hlab. lia. }
    assert (Hk' : forall labels, listLabels = Some labels ->
                    (S k + length listTemplates <= length labels)%nat).
    { intros labels E. specialize (Hlab labels E). simpl in Hlab. lia. }
    pose proof (fun p => search_template_returns image score_threshold nObjects
                           xOffset yOffset template listHit p Hk) as Hbody.
    destruct (snd (search_template image listLabels score_threshold nObjects
                     xOffset yOffset (k, template) listHit))
      as [e | listHit'] eqn:Eb.
    + split; [discriminate|].
      intros (hitss & _ & F). inversion F as [|? hits ? hitss' Hh F']; subst.
      assert (G : @inl exn (list BoundingBox) e = inr (listHit ++ hits)).
      { apply Hbody. exists hits. split; [reflexivity | exact Hh]. }
      discriminate.
    + destruct (proj1 (Hbody listHit') eq_refl) as (hits & -> & Hh).
      rewrite (IH (S k) (listHit ++ hits) pool Hk'). split.
      * intros (hitss & -> & F). exists (hits :: hitss). simpl.
        rewrite app_assoc. split; [reflexivity | now constructor].
      * intros (hitss & -> & F).
        inversion F as [|? hits' ? hitss' Hh' F']; subst.
        assert (G : @inr exn _ (listHit ++ hits) = inr (listHit ++ hits')).
        { apply Hbody. exists hits'. split; [reflexivity | exact Hh']. }
        inversion G as [G']. apply app_inv_head in G'. subst hits'.
        exists hitss'. simpl. rewrite app_assoc.
        split; [reflexivity | exact F'].
Qed.

(** When [findMatches] returns, its pool is the concatenation, in the order
    of the templates, of the detections of each template. *)
Lemma findMatches_returns_pool image listTemplates listLabels score_threshold
      nObjects searchBox xOffset yOffset searched pool :
  crop_to_searchBox image searchBox = (xOffset, yOffset, searched) ->
  snd (findMatches image listTemplates listLabels score_threshold nObjects
                   searchBox) = inr pool ->
  exists hitss,
    pool = concat hitss /\
    Forall2 (template_hits searched listLabels score_threshold nObjects
                           xOffset yOffset)
            (enumerate listTemplates) hitss.
Proof.
  intros Ec. unfold findMatches. rewrite Ec.
  destruct (py_ne_inf nObjects && py_type_ne_int nObjects); [discriminate|].
  destruct (py_lt_one nObjects); [discriminate|].
  destruct (match listLabels with
            | Some labels =>
                negb (Nat.eqb (length listTemplates) (length labels))
            | None => false
            end) eqn:El; [discriminate|].
  intros E. unfold enumerate in *.
  apply search_templates_returns in E; [exact E|].
  intros labels ->. apply negb_false_iff, Nat.eqb_eq in El. lia.
Qed.

(** When [findMatches] returns, there was one label per template. *)
Lemma findMatches_returns_labelled image listTemplates listLabels
      score_threshold nObjects searchBox pool :
  snd (findMatches image listTemplates listLabels score_threshold nObjects
                   searchBox) = inr pool ->
  forall labels, listLabels = Some labels ->
                 length listTemplates = length labels.
Proof.
  unfold findMatches.
  destruct (py_ne_inf nObjects && py_type_ne_int nObjects); [discriminate|].
  destruct (py_lt_one nObjects); [discriminate|].
  destruct listLabels as [labels0|]; [|discriminate].
  destruct (Nat.eqb_spec (length listTemplates) (length labels0)) as [E|N];
    [|discriminate].
  intros _ labels El. now inversion El; subst.
Qed.

(** Conversely, on accepted arguments [findMatches] returns as soon as every
    template has its detections: the correlation and the peak extraction
    returned, and every peak lies on the correlation map. *)
Lemma findMatches_builds_pool image listTemplates listLabels score_threshold
      nObjects searchBox xOffset yOffset searched hitss :
  valid_nObjects nObjects ->
  (forall labels, listLabels = Some labels ->
                  length listTemplates = length labels) ->
  crop_to_searchBox image searchBox = (xOffset, yOffset, searched) ->
  Forall2 (template_hits searched listLabels score_threshold nObjects
                         xOffset yOffset)
          (enumerate listTemplates) hitss ->
  snd (findMatches image listTemplates listLabels score_threshold nObjects
                   searchBox) = inr (concat hitss).
Proof.
  intros Hn Hlab Ec F. unfold findMatches. rewrite Ec.
  assert (Ht : py_ne_inf nObjects && py_type_ne_int nObjects = false).
  { destruct Hn as [-> | (z & -> & _)]; reflexivity. }
  assert (Hp : py_lt_one nObjects = false).
  { destruct Hn as [-> | (z & -> & Hz)]; [reflexivity|].
    simpl. apply Z.ltb_ge. lia. }
  rewrite Ht, Hp.
  assert (El : match listLabels with
               | Some labels =>
                   negb (Nat.eqb (length listTemplates) (length labels))
               | None => false
               end = false).
  { destruct listLabels as [labels|]; [|reflexivity].
    rewrite (Hlab labels eq_refl), Nat.eqb_refl. reflexivity. }
  rewrite El. unfold enumerate in *.
  apply search_templates_returns.
  - intros labels E. rewrite (Hlab labels E). lia.
  - exists hitss. split; [reflexivity | exact F].
Qed.

Lemma Forall2_In_l {A B : Type} (R : A -> B -> Prop) l l' x :
  Forall2 R l l' -> In x l -> exists y, In y l' /\ R x y.
Proof.
  induction 1 as [|a b l l' Hab F IH]; intros Hin; [contradiction|].
  destruct Hin as [-> | Hin].
  - exists b. split; [now left | exact Hab].
  - destruct (IH Hin) as (y & Hy & HR). exists y. split; [now right | exact HR].
Qed.

Lemma Forall2_In_r {A B : Type} (R : A -> B -> Prop) l l' y :
  Forall2 R l l' -> In y l' -> exists x, In x l /\ R x y.
Proof.
  induction 1 as [|a b l l' Hab F IH]; intros Hin; [contradiction|].
  destruct Hin as [-> | Hin].
  - exists a. split; [now left | exact Hab].
  - destruct (IH Hin) as (x & Hx & HR). exists x. split; [now right | exact HR].
Qed.

Lemma in_enumerate_from {A : Type} (l : list A) :
  forall k i x,
    In (i, x) (enumerate_from k l) <->
    (k <= i)%nat /\ nth_error l (i - k) = Some x.
Proof.
  induction l as [|a l IH]; intros k i x; cbn [enumerate_from In].
  - split; [contradiction|]. intros [_ E]. now destruct (i - k)%nat.
  - rewrite IH. split.
    + intros [E | [Hk E]].
      * inversion E; subst. rewrite Nat.sub_diag. split; [lia | reflexivity].
      * split; [lia|]. replace (i - k)%nat with (S (i - S k)) by lia. exact E.
    + intros [Hk E]. destruct (Nat.eq_dec i k) as [-> | N].
      * rewrite Nat.sub_diag in E. inversion E. now left.
      * right. split; [lia|].
        replace (i - k)%nat with (S (i - S k)) in E by lia. exact E.
Qed.

Lemma in_enumerate {A : Type} (l : list A) i x :
  In (i, x) (enumerate l) <-> nth_error l i = Some x.
Proof.
  unfold enumerate. rewrite in_enumerate_from, Nat.sub_0_r.
  split; [now intros [_ E] | intros E; split; [lia | exact E]].
Qed.

(** C3. Let [(xOffset, yOffset)] and [searched] be the origin and the image
    that cropping to the search box gives.  A pool returned by [findMatches]
    holds, for every template of the list and every peak that peak extraction
    returned on the template's correlation map, a detection whose box is
    [(peakCol + xOffset, peakRow + yOffset, width, height)] with the
    template's width and height, whose score is the value of the correlation
    map at the peak, whose template index is the position of the template in
    the list and whose label is the label given for that template, or the
    empty string without labels; the pool holds nothing else, and the labels,
    when given, are as many as the templates.  On accepted arguments such a
    pool is returned as soon as every template has its detections.  The
    origin [(xOffset, yOffset)] is that of the search box, or (0, 0) without
    one. *)
Theorem findMatches_detections image listTemplates listLabels score_threshold
        nObjects searchBox xOffset yOffset searched :
  crop_to_searchBox image searchBox = (xOffset, yOffset, searched) ->
  (forall pool,
      snd (findMatches image listTemplates listLabels score_threshold nObjects
                       searchBox) = inr pool ->
      (forall index template corrMap listPeaks peak,
          nth_error listTemplates index = Some template ->
          match_template searched template = inr corrMap ->
          snd (findMaximas corrMap score_threshold nObjects) = inr listPeaks ->
          In peak listPeaks ->
          exists d,
            In d pool /\
            get_xywh d = (snd peak + xOffset, fst peak + yOffset,
                          Z.of_nat (snd (shape template)),
                          Z.of_nat (fst (shape template))) /\
            np_getitem2 corrMap peak = inr (get_score d) /\
            get_template_index d = Z.of_nat index /\
            get_label d = label_of listLabels index) /\
      (forall d,
          In d pool ->
          exists index template corrMap listPeaks peak,
            nth_error listTemplates index = Some template /\
            match_template searched template = inr corrMap /\
            snd (findMaximas corrMap score_threshold nObjects)
            = inr listPeaks /\
            In peak listPeaks /\
            get_xywh d = (snd peak + xOffset, fst peak + yOffset,
                          Z.of_nat (snd (shape template)),
                          Z.of_nat (fst (shape template))) /\
            np_getitem2 corrMap peak = inr (get_score d) /\
            get_template_index d = Z.of_nat index /\
            get_label d = label_of listLabels index) /\
      (forall labels,
          listLabels = Some labels ->
          length labels = length listTemplates)) /\
  (valid_nObjects nObjects ->
   (forall labels,
       listLabels = Some labels -> length labels = length listTemplates) ->
   forall hitss,
     Forall2 (template_hits searched listLabels score_threshold nObjects
                            xOffset yOffset)
             (enumerate listTemplates) hitss ->
     snd (findMatches image listTemplates listLabels score_threshold nObjects
                      searchBox) = inr (concat hitss)) /\
  (searchBox = None -> (xOffset, yOffset) = (0, 0)) /\
  (forall x y w h,
      searchBox = Some (x, y, w, h) -> (xOffset, yOffset) = (x, y)).
Proof.
  intros Ec. split; [|split; [|split]].
  - intros pool Er.
    destruct (findMatches_returns_pool _ _ _ _ _ _ Ec Er) as (hitss & E & F).
    subst pool. split; [|split].
    + intros index template corrMap listPeaks peak Hn Hm Hf Hp.
      apply in_enumerate in Hn.
      destruct (Forall2_In_l (index, template) F Hn) as (hits & Hh & Ht).
      destruct Ht as (cm & pk & Em & Ef & Fh). cbn [fst snd] in *.
      rewrite Hm in Em. inversion Em; subst cm.
      rewrite Hf in Ef. inversion Ef; subst pk.
      destruct (Forall2_In_l peak Fh Hp) as (d & Hd & Hit).
      exists d. split; [|exact Hit].
      apply in_concat. exists hits. split; assumption.
    + intros d Hd. apply in_concat in Hd. destruct Hd as (hits & Hh & Hd).
      destruct (Forall2_In_r hits F Hh) as ([index template] & Hn & Ht).
      apply in_enumerate in Hn.
      destruct Ht as (cm & pk & Em & Ef & Fh). cbn [fst snd] in *.
      destruct (Forall2_In_r d Fh Hd) as (peak & Hp & Hit).
      exists index, template, cm, pk, peak.
      repeat split; try assumption; apply Hit.
    + intros labels E. symmetry.
      eapply findMatches_returns_labelled; [exact Er | exact E].
  - intros Hn Hlab hitss F.
    apply findMatches_builds_pool with (xOffset := xOffset)
                                       (yOffset := yOffset)
                                       (searched := searched);
      [exact Hn | | exact Ec | exact F].
    intros labels E. symmetry. exact (Hlab labels E).
  - intros ->. simpl in Ec. now inversion Ec.
  - intros x y w h ->. simpl in Ec. now inversion Ec.
Qed.

(** ** The order of the pool *)

Lemma template_hits_index image listLabels score_threshold nObjects
      xOffset yOffset it hits :
  template_hits image listLabels score_threshold nObjects xOffset yOffset
                it hits ->
  Forall (fun d => get_template_index d = Z.of_nat (fst it)) hits.
Proof.
  intros (cm & pk & _ & _ & F).
  induction F as [|p d pk hits Hd F IH]; constructor; [apply Hd | exact IH].
Qed.

(** Every detection of the blocks of the templates numbered from [k] has a
    template index of at least [k]. *)
Lemma blocks_index_lower image listLabels score_threshold nObjects
      xOffset yOffset listTemplates :
  forall k hitss,
    Forall2 (template_hits image listLabels score_threshold nObjects
                           xOffset yOffset)
            (enumerate_from k listTemplates) hitss ->
    Forall (fun d => Z.of_nat k <= get_template_index d) (concat hitss).
Proof.
  induction listTemplates as [|template listTemplates IH]; intros k hitss F;
    cbn [enumerate_from] in F; inversion F as [|? hits ? hitss' Hh F']; subst;
    cbn [concat]; [constructor|].
  apply Forall_app. split.
  - apply template_hits_index in Hh. cbn [fst] in Hh.
    eapply Forall_impl; [|exact Hh]. intros d ->. lia.
  - eapply Forall_impl; [|exact (IH _ _ F')]. intros d Hd. cbn beta in Hd. lia.
Qed.

Lemma blocks_sorted image listLabels score_threshold nObjects
      xOffset yOffset listTemplates :
  forall k hitss,
    Forall2 (template_hits image listLabels score_threshold nObjects
                           xOffset yOffset)
            (enumerate_from k listTemplates) hitss ->
    StronglySorted Z.le (map get_template_index (concat hitss)).
Proof.
  induction listTemplates as [|template listTemplates IH]; intros k hitss F;
    cbn [enumerate_from] in F; inversion F as [|? hits ? hitss' Hh F']; subst;
    cbn [concat]; [constructor|].
  pose proof (blocks_index_lower _ _ F') as Hlow.
  specialize (IH _ _ F').
  apply template_hits_index in Hh. cbn [fst] in Hh.
  clear F. induction Hh as [|d hits Hd Hh IHh]; [exact IH|].
  cbn [app map]. constructor; [exact IHh|].
  rewrite map_app. apply Forall_app. split; apply Forall_map.
  - eapply Forall_impl; [|exact Hh]. intros d' E. cbn beta in E. lia.
  - eapply Forall_impl; [|exact Hlow]. intros d' E. cbn beta in E. lia.
Qed.

Lemma StronglySorted_nth_lt (l : list Z) :
  StronglySorted Z.le l ->
  forall a b x y,
    nth_error l a = Some x -> nth_error l b = Some y -> x < y -> (a < b)%nat.
Proof.
  induction 1 as [|h l S IH Hh]; intros a b x y Ha Hb Hlt.
  - now destruct a.
  - destruct a as [|a], b as [|b]; cbn [nth_error] in *.
    + inversion Ha; inversion Hb; lia.
    + lia.
    + inversion Hb; subst y. apply nth_error_In in Ha.
      rewrite Forall_forall in Hh. specialize (Hh x Ha). lia.
    + apply -> Nat.succ_lt_mono. exact (IH a b x y Ha Hb Hlt).
Qed.

Lemma filter_all {A : Type} (f : A -> bool) (l : list A) :
  Forall (fun x => f x = true) l -> filter f l = l.
Proof.
  induction 1 as [|x l Hx F IH]; cbn [filter]; [reflexivity|].
  now rewrite Hx, IH.
Qed.

Lemma filter_none {A : Type} (f : A -> bool) (l : list A) :
  Forall (fun x => f x = false) l -> filter f l = [].
Proof.
  induction 1 as [|x l Hx F IH]; cbn [filter]; [reflexivity|].
  now rewrite Hx, IH.
Qed.

(** The detections of the pool that carry the index of a template are its
    block. *)
Lemma block_by_index image listLabels score_threshold nObjects
      xOffset yOffset listTemplates :
  forall k hitss j template,
    Forall2 (template_hits image listLabels score_threshold nObjects
                           xOffset yOffset)
            (enumerate_from k listTemplates) hitss ->
    nth_error listTemplates j = Some template ->
    exists hits,
      template_hits image listLabels score_threshold nObjects xOffset yOffset
                    ((k + j)%nat, template) hits /\
      filter (fun d => get_template_index d =? Z.of_nat (k + j))
             (concat hitss) = hits.
Proof.
  induction listTemplates as [|t0 listTemplates IH];
    intros k hitss j template F Hn; [now destruct j|].
  cbn [enumerate_from] in F. inversion F as [|? hits ? hitss' Hh F']; subst.
  cbn [concat]. rewrite filter_app.
  pose proof (blocks_index_lower _ _ F') as Hlow.
  pose proof (template_hits_index Hh) as Hidx. cbn [fst] in Hidx.
  destruct j as [|j]; cbn [nth_error] in Hn.
  - inversion Hn; subst t0. rewrite Nat.add_0_r. exists hits.
    split; [exact Hh|].
    rewrite filter_all, filter_none, app_nil_r; [reflexivity| |].
    + eapply Forall_impl; [|exact Hlow]. intros d Hd. cbn beta in *.
      apply Z.eqb_neq. lia.
    + eapply Forall_impl; [|exact Hidx]. intros d Hd. cbn beta in *.
      apply Z.eqb_eq. exact Hd.
  - destruct (IH (S k) hitss' j template F' Hn) as (hits' & Hh' & Hf).
    replace (k + S j)%nat with (S k + j)%nat by lia.
    exists hits'. split; [exact Hh'|].
    rewrite filter_none; [exact Hf|].
    eapply Forall_impl; [|exact Hidx]. intros d Hd. cbn beta in *.
    apply Z.eqb_neq. lia.
Qed.

(** C7. When [findMatches] returns a pool, the pool is ordered by template
    index: a detection of a template never comes after a detection of a
    template further down the list; and the detections of one template are,
    in the pool's order, the detections of its peaks in the order in which
    peak extraction returned them. *)
Theorem findMatches_pool_order image listTemplates listLabels score_threshold
        nObjects searchBox xOffset yOffset searched pool :
  crop_to_searchBox image searchBox = (xOffset, yOffset, searched) ->
  snd (findMatches image listTemplates listLabels score_threshold nObjects
                   searchBox) = inr pool ->
  (forall a b da db,
      nth_error pool a = Some da -> nth_error pool b = Some db ->
      get_template_index da < get_template_index db -> (a < b)%nat) /\
  (forall index template corrMap listPeaks,
      nth_error listTemplates index = Some template ->
      match_template searched template = inr corrMap ->
      snd (findMaximas corrMap score_threshold nObjects) = inr listPeaks ->
      Forall2 (is_hit corrMap xOffset yOffset
                      (Z.of_nat (snd (shape template)))
                      (Z.of_nat (fst (shape template)))
                      index (label_of listLabels index))
              listPeaks
              (filter (fun d => get_template_index d =? Z.of_nat index) pool)).
Proof.
  intros Ec Er.
  destruct (findMatches_returns_pool _ _ _ _ _ _ Ec Er) as (hitss & -> & F).
  unfold enumerate in F. split.
  - intros a b da db Ha Hb Hlt.
    apply (StronglySorted_nth_lt (blocks_sorted _ _ F)) with
      (x := get_template_index da) (y := get_template_index db);
      [now apply map_nth_error | now apply map_nth_error | exact Hlt].
  - intros index template corrMap listPeaks Hn Hm Hf.
    destruct (block_by_index _ _ index F Hn) as (hits & Hh & Hfl).
    cbn [Nat.add] in Hfl, Hh. rewrite Hfl.
    destruct Hh as (cm & pk & Em & Ef & Fh). cbn [fst snd] in *.
    rewrite Hm in Em. inversion Em; subst cm.
    rewrite Hf in Ef. inversion Ef; subst pk. exact Fh.
Qed.

(** ** The search box *)

Lemma select_range_shift {A : Type} (lo hi : Z) (l : list A) :
  forall k,
    map snd (filter (fun it => (lo <=? Z.of_nat (fst it))
                               && (Z.of_nat (fst it) <? hi))
                    (enumerate_from (S k) l))
    = map snd (filter (fun it => (lo - 1 <=? Z.of_nat (fst it))
                                 && (Z.of_nat (fst it) <? hi - 1))
                      (enumerate_from k l)).
Proof.
  induction l as [|a l IH]; intros k; cbn [enumerate_from filter fst];
    [reflexivity|].
  replace ((lo - 1 <=? Z.of_nat k) && (Z.of_nat k <? hi - 1))
    with ((lo <=? Z.of_nat (S k)) && (Z.of_nat (S k) <? hi)).
  - destruct ((lo <=? Z.of_nat (S k)) && (Z.of_nat (S k) <? hi));
      cbn [map snd]; now rewrite IH.
  - f_equal.
    + destruct (Z.leb_spec lo (Z.of_nat (S k)));
        destruct (Z.leb_spec (lo - 1) (Z.of_nat k)); lia || reflexivity.
    + destruct (Z.ltb_spec (Z.of_nat (S k)) hi);
        destruct (Z.ltb_spec (Z.of_nat k) (hi - 1)); lia || reflexivity.
Qed.

(** The elements at the positions of [lo, hi) are those that remain when
    the first [lo] are dropped and [hi - lo] are kept. *)
Lemma select_range_firstn_skipn {A : Type} (l : list A) :
  forall lo hi,
    select_range lo hi l
    = firstn (Z.to_nat hi - Z.to_nat lo) (skipn (Z.to_nat lo) l).
Proof.
  unfold select_range, enumerate.
  induction l as [|a l IH]; intros lo hi.
  - cbn [enumerate_from filter map]. now rewrite skipn_nil, firstn_nil.
  - cbn [enumerate_from filter fst]. change (Z.of_nat 0) with 0.
    destruct (Z.leb_spec lo 0) as [Hlo | Hlo];
      destruct (Z.ltb_spec 0 hi) as [Hhi | Hhi]; cbn [andb map snd];
      rewrite select_range_shift, IH.
    + replace (Z.to_nat lo) with 0%nat by lia.
      replace (Z.to_nat (lo - 1)) with 0%nat by lia.
      replace (Z.to_nat hi - 0)%nat with (S (Z.to_nat (hi - 1))) by lia.
      rewrite Nat.sub_0_r. reflexivity.
    + replace (Z.to_nat lo) with 0%nat by lia.
      replace (Z.to_nat (lo - 1)) with 0%nat by lia.
      replace (Z.to_nat hi) with 0%nat by lia.
      replace (Z.to_nat (hi - 1)) with 0%nat by lia. reflexivity.
    + replace (Z.to_nat lo) with (S (Z.to_nat (lo - 1))) by lia.
      cbn [skipn]. f_equal. lia.
    + replace (Z.to_nat lo) with (S (Z.to_nat (lo - 1))) by lia.
      cbn [skipn]. f_equal. lia.
Qed.

(** A slice whose two bounds are non-negative keeps the elements at the
    positions of [start, stop). *)
Lemma py_slice_select_range {A : Type} (l : list A) start stop :
  0 <= start -> 0 <= stop -> py_slice start stop l = select_range start stop l.
Proof.
  intros Hs He. rewrite select_range_firstn_skipn.
  unfold py_slice, slice_bound.
  destruct (Z.ltb_spec start 0); [lia|]. destruct (Z.ltb_spec stop 0); [lia|].
  destruct (Z_lt_le_dec start (Z.of_nat (length l))) as [Hin | Hout].
  - rewrite (Z.min_l start) by lia.
    destruct (Z_le_gt_dec stop (Z.of_nat (length l))) as [Hin' | Hout'].
    + rewrite (Z.min_l stop) by lia. f_equal. lia.
    + rewrite (Z.min_r stop) by lia.
      rewrite !firstn_all2; [reflexivity | |]; rewrite length_skipn; lia.
  - rewrite (Z.min_r start) by lia.
    rewrite !(skipn_all2 l) by lia. now rewrite !firstn_nil.
Qed.

Lemma np_slice2_box_intersection (image : ndarray) x y w h :
  0 <= x -> 0 <= y -> 0 <= w -> 0 <= h ->
  np_slice2 y (y + h) x (x + w) image = box_intersection image (x, y, w, h).
Proof.
  intros Hx Hy Hw Hh. unfold np_slice2, box_intersection.
  rewrite py_slice_select_range by lia.
  apply map_ext. intros row. apply py_slice_select_range; lia.
Qed.

Lemma bind_ext {A B : Type} (m : M A) (k k' : A -> M B) :
  (forall a, k a = k' a) -> bind m k = bind m k'.
Proof. intros E. unfold bind. destruct (snd m); [reflexivity | now rewrite E]. Qed.

Lemma bind_map_value {A B C : Type} (f : A -> B) (m : M A) (k : B -> M C) :
  bind (map_value f m) k = bind m (fun a => k (f a)).
Proof. destruct m as [t [e | a]]; reflexivity. Qed.

(** Searching with the origin at [(x, y)] gives the detections of a search
    with the origin at (0, 0), moved by [(x, y)]. *)
Lemma append_hits_translate corrMap x y width height index label listPeaks :
  forall listHit,
    for_each listPeaks (append_hit corrMap x y width height index label)
             (map (translate x y) listHit)
    = map_value (map (translate x y))
        (for_each listPeaks (append_hit corrMap 0 0 width height index label)
                  listHit).
Proof.
  induction listPeaks as [|peak listPeaks IH]; intros listHit;
    cbn [for_each]; [reflexivity|].
  unfold append_hit at 1 3.
  destruct (np_getitem2 corrMap peak) as [e | score].
  - rewrite !bind_lift_inl, !bind_raise_l. reflexivity.
  - rewrite !bind_lift_inr, !bind_ret_l, <- IH, map_app. cbn [map].
    unfold translate at 3. cbn [get_xywh get_score get_template_index get_label].
    now rewrite !Z.add_0_r.
Qed.

Lemma search_template_translate image listLabels score_threshold nObjects
      x y it listHit :
  search_template image listLabels score_threshold nObjects x y it
                  (map (translate x y) listHit)
  = map_value (map (translate x y))
      (search_template image listLabels score_threshold nObjects 0 0 it
                       listHit).
Proof.
  unfold search_template. destruct it as [index template].
  rewrite map_value_bind. apply bind_ext. intros corrMap.
  rewrite map_value_bind. apply bind_ext. intros listPeaks.
  destruct (shape template) as [height width].
  rewrite map_value_bind. apply bind_ext. intros label.
  apply append_hits_translate.
Qed.

Lemma search_templates_translate image listLabels score_threshold nObjects
      x y (its : list (nat * ndarray)) :
  forall listHit,
    for_each its
      (search_template image listLabels score_threshold nObjects x y)
      (map (translate x y) listHit)
    = map_value (map (translate x y))
        (for_each its
           (search_template image listLabels score_threshold nObjects 0 0)
           listHit).
Proof.
  induction its as [|it its IH]; intros listHit; cbn [for_each];
    [reflexivity|].
  rewrite search_template_translate, bind_map_value, map_value_bind.
  apply bind_ext. intros listHit'. apply IH.
Qed.

(** C9, for a search box in the non-negative quadrant.  When the origin and
    the size of the search box are non-negative, cropping raises nothing and
    keeps exactly the pixels of the image that lie inside the box, however
    far the box reaches past the right or the bottom edge; [findMatches] then
    behaves as a search of that intersection alone, with every detection
    moved by the origin [(x, y)] of the box. *)
Theorem findMatches_searchBox_clipped image listTemplates listLabels
        score_threshold nObjects x y w h :
  0 <= x -> 0 <= y -> 0 <= w -> 0 <= h ->
  crop_to_searchBox image (Some (x, y, w, h))
  = (x, y, box_intersection image (x, y, w, h)) /\
  findMatches image listTemplates listLabels score_threshold nObjects
              (Some (x, y, w, h))
  = map_value (map (translate x y))
      (findMatches (box_intersection image (x, y, w, h)) listTemplates
                   listLabels score_threshold nObjects None).
Proof.
  intros Hx Hy Hw Hh.
  assert (Ec : crop_to_searchBox image (Some (x, y, w, h))
               = (x, y, box_intersection image (x, y, w, h))).
  { cbn [crop_to_searchBox]. now rewrite np_slice2_box_intersection. }
  split; [exact Ec|].
  unfold findMatches. rewrite Ec. cbn [crop_to_searchBox].
  destruct (py_ne_inf nObjects && py_type_ne_int nObjects); [reflexivity|].
  destruct (py_lt_one nObjects); [reflexivity|].
  destruct (match listLabels with
            | Some labels =>
                negb (Nat.eqb (length listTemplates) (length labels))
            | None => false
            end); [reflexivity|].
  exact (search_templates_translate _ _ _ _ x y _ []).
Qed.

End Properties.

(** ** Colors of the detections drawn *)

Section PlotProperties.
Variables outline color : Type.
Variable palette : list color.
Variable get_lists_xy : BoundingBox -> outline.

Lemma plot_detection_returns thickness showLegend d st :
  palette <> [] ->
  exists line mapLabelColor,
    plot_detection palette get_lists_xy thickness showLegend d st
    = ret (fst st ++ [line], mapLabelColor) /\
    drawn palette get_lists_xy thickness d line.
Proof.
  intros Hne. unfold plot_detection, py_mod.
  assert (Hlen : 0 < Z.of_nat (length palette)).
  { destruct palette; [contradiction | simpl; lia]. }
  destruct (Z.eqb_spec (Z.of_nat (length palette)) 0) as [E | _]; [lia|].
  rewrite bind_lift_inr.
  set (i := get_template_index d mod Z.of_nat (length palette)).
  assert (Hi : 0 <= i < Z.of_nat (length palette))
    by (apply Z.mod_pos_bound; exact Hlen).
  unfold py_getitem, py_axis.
  destruct (Z.leb_spec 0 i); [|lia].
  destruct (Z.ltb_spec i (Z.of_nat (length palette))); [|lia]. cbn [andb].
  destruct (nth_error palette (Z.to_nat i)) as [c|] eqn:En.
  - rewrite bind_lift_inr.
    exists (mkPlot (get_lists_xy d) thickness c).
    destruct showLegend; [destruct (negb (String.eqb (get_label d) ""))|];
      eexists; (split; [reflexivity | repeat split; exact En]).
  - apply nth_error_None in En. lia.
Qed.

Lemma plot_loop_returns thickness showLegend listDetections :
  palette <> [] ->
  forall st,
  exists lines mapLabelColor,
    for_each listDetections
      (plot_detection palette get_lists_xy thickness showLegend) st
    = ret (fst st ++ lines, mapLabelColor) /\
    Forall2 (drawn palette get_lists_xy thickness) listDetections lines.
Proof.
  intros Hne. induction listDetections as [|d listDetections IH]; intros st.
  - exists [], (snd st). cbn [for_each]. rewrite app_nil_r.
    split; [now destruct st | constructor].
  - destruct (plot_detection_returns thickness showLegend d st Hne)
      as (line & m & E & Hd).
    destruct (IH (fst st ++ [line], m)) as (lines & m' & E' & F).
    exists (line :: lines), m'. cbn [for_each].
    rewrite E, bind_ret_l, E'. cbn [fst]. rewrite <- app_assoc.
    split; [reflexivity | now constructor].
Qed.

(** C8. With a non-empty palette, [plotDetections] draws one line per
    detection, in order, each with the outline of its detection, the given
    thickness, and the color found in the palette at
    [templateIndex mod paletteSize]; hence two detections with the same
    template index are drawn in the same color. *)
Theorem plotDetections_colors image listDetections thickness showLegend :
  palette <> [] ->
  exists fig,
    plotDetections palette get_lists_xy image listDetections thickness
                   showLegend
    = ret fig /\
    Forall2
      (fun d line =>
         plot_xy line = get_lists_xy d /\
         plot_linewidth line = thickness /\
         nth_error palette
           (Z.to_nat (get_template_index d mod Z.of_nat (length palette)))
         = Some (plot_color line))
      listDetections (fig_lines fig) /\
    (forall i j d1 d2 line1 line2,
        nth_error listDetections i = Some d1 ->
        nth_error listDetections j = Some d2 ->
        nth_error (fig_lines fig) i = Some line1 ->
        nth_error (fig_lines fig) j = Some line2 ->
        get_template_index d1 = get_template_index d2 ->
        plot_color line1 = plot_color line2).
Proof.
  intros Hne.
  destruct (plot_loop_returns thickness showLegend listDetections Hne ([], []))
    as (lines & m & E & F).
  cbn [fst app] in E.
  assert (Hsame : forall i j d1 d2 line1 line2,
             nth_error listDetections i = Some d1 ->
             nth_error listDetections j = Some d2 ->
             nth_error lines i = Some line1 ->
             nth_error lines j = Some line2 ->
             get_template_index d1 = get_template_index d2 ->
             plot_color line1 = plot_color line2).
  { assert (Hnth : forall i d line,
               nth_error listDetections i = Some d ->
               nth_error lines i = Some line ->
               drawn palette get_lists_xy thickness d line).
    { clear E. induction F as [|d0 l0 ds ls Hd F IH]; intros i d line Hi Hl.
      - now destruct i.
      - destruct i as [|i]; cbn [nth_error] in *.
        + inversion Hi; inversion Hl; subst. exact Hd.
        + exact (IH i d line Hi Hl). }
    intros i j d1 d2 line1 line2 H1 H2 L1 L2 Eidx.
    destruct (Hnth i d1 line1 H1 L1) as (_ & _ & C1).
    destruct (Hnth j d2 line2 H2 L2) as (_ & _ & C2).
    rewrite Eidx in C1. rewrite C1 in C2. now inversion C2. }
  unfold plotDetections. rewrite E, bind_ret_l. cbn [fst snd].
  destruct showLegend; [destruct m|];
    eexists; (split; [reflexivity | split; [exact F | exact Hsame]]).
Qed.

End PlotProperties.

(** ** The calls of the pipeline *)

Section PipelineProperties.
Context {skimage : Collaborators}.

Lemma fst_bind {A B : Type} (m : M A) (k : A -> M B) :
  fst (bind m k)
  = match snd m with inl _ => fst m | inr a => fst m ++ fst (k a) end.
Proof. unfold bind. now destruct (snd m). Qed.

Lemma append_hits_trace corrMap xOffset yOffset width height index label
      listPeaks :
  forall listHit,
    fst (for_each listPeaks
           (append_hit corrMap xOffset yOffset width height index label)
           listHit) = [].
Proof.
  induction listPeaks as [|peak listPeaks IH]; intros listHit;
    cbn [for_each]; [reflexivity|].
  unfold append_hit at 1.
  destruct (np_getitem2 corrMap peak) as [e | score].
  - now rewrite bind_lift_inl, bind_raise_l.
  - rewrite bind_lift_inr, bind_ret_l. apply IH.
Qed.

Lemma findMaximas_trace corrMap score_threshold nObjects :
  fst (findMaximas corrMap score_threshold nObjects)
  = if shape_eqb (shape corrMap) (1%nat, 1%nat) then []
    else [CallPeakLocalMax corrMap score_threshold false
                           (requested_peaks nObjects)].
Proof.
  unfold findMaximas.
  destruct (shape_eqb (shape corrMap) (1%nat, 1%nat)); [|reflexivity].
  rewrite fst_bind. cbn [lift fst snd].
  now destruct (np_getitem2 corrMap (0, 0)).
Qed.

(** The search of one template makes the calls of [template_calls], whether
    it returns or raises. *)
Lemma search_template_trace image listLabels score_threshold nObjects
      xOffset yOffset index template listHit :
  fst (search_template image listLabels score_threshold nObjects
                       xOffset yOffset (index, template) listHit)
  = template_calls image score_threshold nObjects template.
Proof.
  unfold search_template, template_calls, call_match_template.
  rewrite fst_bind. cbn [fst snd].
  destruct (match_template image template) as [e | corrMap]; [reflexivity|].
  cbn [app]. f_equal.
  rewrite fst_bind, findMaximas_trace.
  destruct (snd (findMaximas corrMap score_threshold nObjects))
    as [e | listPeaks]; [reflexivity|].
  destruct (shape template) as [height width].
  assert (Hl : forall (A : Type) (k : string -> M A),
             (forall l, fst (k l) = []) ->
             fst (bind match listLabels with
                       | Some ((_ :: _) as labels) =>
                           lift (py_getitem labels (Z.of_nat index))
                       | _ => ret EmptyString
                       end k) = []).
  { intros A k Hk. rewrite fst_bind.
    destruct listLabels as [[|l0 labels]|]; cbn [ret lift fst snd];
      try apply Hk.
    destruct (py_getitem (l0 :: labels) (Z.of_nat index)); [reflexivity|].
    apply Hk. }
  rewrite Hl; [now rewrite app_nil_r|].
  intros l. apply append_hits_trace.
Qed.

(** The loop over the templates makes the calls of the templates it reaches,
    in order; it reaches all of them when it returns. *)
Lemma search_templates_trace image listLabels score_threshold nObjects
      xOffset yOffset (its : list (nat * ndarray)) :
  forall listHit,
  exists k,
    (k <= length its)%nat /\
    fst (for_each its
           (search_template image listLabels score_threshold nObjects
                            xOffset yOffset) listHit)
    = flat_map (template_calls image score_threshold nObjects)
               (firstn k (map snd its)) /\
    (forall pool,
        snd (for_each its
               (search_template image listLabels score_threshold nObjects
                                xOffset yOffset) listHit) = inr pool ->
        k = length its).
Proof.
  induction its as [|[index template] its IH]; intros listHit.
  - exists 0%nat. cbn. repeat split; auto.
  - cbn [for_each]. rewrite fst_bind, snd_bind, search_template_trace.
    destruct (snd (search_template image listLabels score_threshold nObjects
                     xOffset yOffset (index, template) listHit))
      as [e | listHit'].
    + exists 1%nat. cbn [length map snd firstn flat_map].
      rewrite app_nil_r. repeat split; [lia | discriminate].
    + destruct (IH listHit') as (k & Hk & Ht & Hs).
      exists (S k). cbn [length map snd firstn flat_map]. rewrite Ht.
      repeat split; [lia|]. intros pool E. now rewrite (Hs pool E).
Qed.

Lemma map_snd_enumerate_from {A : Type} (l : list A) :
  forall k, map snd (enumerate_from k l) = l.
Proof.
  induction l as [|a l IH]; intros k; cbn [enumerate_from map snd];
    [reflexivity | now rewrite IH].
Qed.

Lemma length_enumerate_from {A : Type} (l : list A) :
  forall k, length (enumerate_from k l) = length l.
Proof.
  induction l as [|a l IH]; intros k; cbn [enumerate_from length];
    [reflexivity | now rewrite IH].
Qed.

(** The trace of [findMatches], whatever its outcome: the calls of the first
    [k] templates on the cropped image, with all the templates when it
    returns. *)
Lemma findMatches_trace image listTemplates listLabels score_threshold
      nObjects searchBox xOffset yOffset searched :
  crop_to_searchBox image searchBox = (xOffset, yOffset, searched) ->
  exists k,
    (k <= length listTemplates)%nat /\
    fst (findMatches image listTemplates listLabels score_threshold nObjects
                     searchBox)
    = flat_map (template_calls searched score_threshold nObjects)
               (firstn k listTemplates) /\
    (forall pool,
        snd (findMatches image listTemplates listLabels score_threshold
                         nObjects searchBox) = inr pool ->
        k = length listTemplates).
Proof.
  intros Ec. unfold findMatches. rewrite Ec.
  destruct (py_ne_inf nObjects && py_type_ne_int nObjects);
    [exists 0%nat; repeat split; [lia | discriminate]|].
  destruct (py_lt_one nObjects);
    [exists 0%nat; repeat split; [lia | discriminate]|].
  destruct (match listLabels with
            | Some labels =>
                negb (Nat.eqb (length listTemplates) (length labels))
            | None => false
            end);
    [exists 0%nat; repeat split; [lia | discriminate]|].
  destruct (search_templates_trace searched listLabels score_threshold nObjects
              xOffset yOffset (enumerate listTemplates) [])
    as (k & Hk & Ht & Hs).
  unfold enumerate in *.
  rewrite map_snd_enumerate_from in Ht. rewrite length_enumerate_from in Hk, Hs.
  exists k. repeat split; assumption.
Qed.

Lemma correlations_template_calls image score_threshold nObjects l :
  correlations (flat_map (template_calls image score_threshold nObjects) l)
  = map (pair image) l.
Proof.
  unfold correlations. induction l as [|t l IH]; [reflexivity|].
  cbn [flat_map map]. rewrite flat_map_app, IH. unfold template_calls.
  cbn [flat_map app]. f_equal.
  destruct (match_template image t) as [e | corrMap]; [reflexivity|].
  now destruct (shape_eqb (shape corrMap) (1%nat, 1%nat)).
Qed.

(** X1. [findMatches] correlates the cropped image, and nothing else, with the
    templates of the list, each at most once and in the order of the list;
    when it returns it has correlated every template exactly once. *)
Theorem findMatches_correlations image listTemplates listLabels
        score_threshold nObjects searchBox xOffset yOffset searched :
  crop_to_searchBox image searchBox = (xOffset, yOffset, searched) ->
  exists k,
    (k <= length listTemplates)%nat /\
    correlations (fst (findMatches image listTemplates listLabels
                                   score_threshold nObjects searchBox))
    = map (pair searched) (firstn k listTemplates) /\
    (forall pool,
        snd (findMatches image listTemplates listLabels score_threshold
                         nObjects searchBox) = inr pool ->
        correlations (fst (findMatches image listTemplates listLabels
                                       score_threshold nObjects searchBox))
        = map (pair searched) listTemplates).
Proof.
  intros Ec.
  destruct (findMatches_trace image listTemplates listLabels score_threshold
              nObjects searchBox Ec) as (k & Hk & Ht & Hs).
  exists k. split; [exact Hk|]. rewrite Ht, correlations_template_calls.
  split; [reflexivity|]. intros pool E.
  rewrite (Hs pool E), firstn_all. reflexivity.
Qed.

(** X2. Every peak search that [findMatches] makes is on a correlation map that
    [match_template] returned for the cropped image and a template of the
    list, with the caller's threshold, without border exclusion, and asking
    for one peak when [nObjects] is 1 and for an unbounded number
    otherwise. *)
Theorem findMatches_peak_searches image listTemplates listLabels
        score_threshold nObjects searchBox xOffset yOffset searched :
  crop_to_searchBox image searchBox = (xOffset, yOffset, searched) ->
  forall corrMap threshold_abs exclude_border num_peaks,
    In (CallPeakLocalMax corrMap threshold_abs exclude_border num_peaks)
       (fst (findMatches image listTemplates listLabels score_threshold
                         nObjects searchBox)) ->
    (exists template,
        In template listTemplates /\
        match_template searched template = inr corrMap) /\
    shape corrMap <> (1%nat, 1%nat) /\
    threshold_abs = score_threshold /\
    exclude_border = false /\
    num_peaks = (if py_eq_one nObjects then PyInt 1 else py_inf).
Proof.
  intros Ec corrMap threshold_abs exclude_border num_peaks Hin.
  destruct (findMatches_trace image listTemplates listLabels score_threshold
              nObjects searchBox Ec) as (k & _ & Ht & _).
  rewrite Ht in Hin. apply in_flat_map in Hin.
  destruct Hin as (template & Hk & Hc).
  assert (Hk' : In template listTemplates).
  { rewrite <- (firstn_skipn k listTemplates). apply in_or_app. now left. }
  clear Hk. rename Hk' into Hk. unfold template_calls in Hc.
  destruct Hc as [Hc | Hc]; [discriminate|].
  destruct (match_template searched template) as [e | cm] eqn:Em;
    [contradiction|].
  destruct (shape_eqb (shape cm) (1%nat, 1%nat)) eqn:Es; [contradiction|].
  destruct Hc as [Hc | []]. inversion Hc; subst.
  split; [exists template; split; assumption|].
  split; [|repeat split].
  intros E. apply shape_eqb_spec in E. congruence.
Qed.


(** ** Failures, search boxes and object counts *)

Lemma bind_assoc {A B C : Type} (m : M A) (f : A -> M B) (g : B -> M C) :
  bind (bind m f) g = bind m (fun a => bind (f a) g).
Proof.
  destruct m as [t [e | a]]; unfold bind; cbn [fst snd]; [reflexivity|].
  destruct (f a) as [t2 [e2 | b]]; cbn [fst snd]; [reflexivity|].
  now rewrite app_assoc.
Qed.

Lemma for_each_app {A S : Type} (body : A -> S -> M S) (l1 l2 : list A) :
  forall s,
    for_each (l1 ++ l2) body s
    = bind (for_each l1 body s) (fun s' => for_each l2 body s').
Proof.
  induction l1 as [|x l1 IH]; intros s; cbn [app for_each].
  - now rewrite bind_ret_l.
  - rewrite bind_assoc. apply bind_ext. intros s'. apply IH.
Qed.

Lemma for_each_ext {A S : Type} (body body' : A -> S -> M S) (l : list A) :
  (forall x s, body x s = body' x s) ->
  forall s, for_each l body s = for_each l body' s.
Proof.
  intros E. induction l as [|x l IH]; intros s; cbn [for_each];
    [reflexivity|].
  rewrite E. apply bind_ext. exact IH.
Qed.

Lemma enumerate_from_app {A : Type} (l1 l2 : list A) :
  forall k,
    enumerate_from k (l1 ++ l2)
    = enumerate_from k l1 ++ enumerate_from (k + length l1) l2.
Proof.
  induction l1 as [|a l1 IH]; intros k; cbn [app enumerate_from length].
  - now rewrite Nat.add_0_r.
  - rewrite IH. now replace (S k + length l1)%nat with (k + S (length l1))%nat
      by lia.
Qed.

(** The search of a template raises what its correlation or its peak
    extraction raises. *)
Lemma search_template_raises image listLabels score_threshold nObjects
      xOffset yOffset index template listHit e :
  match_template image template = inl e \/
  (exists corrMap,
      match_template image template = inr corrMap /\
      snd (findMaximas corrMap score_threshold nObjects) = inl e) ->
  snd (search_template image listLabels score_threshold nObjects
                       xOffset yOffset (index, template) listHit) = inl e.
Proof.
  unfold search_template, call_match_template. rewrite snd_bind. cbn [snd].
  intros [Em | (corrMap & Em & Ef)]; rewrite Em; [reflexivity|].
  rewrite snd_bind, Ef. reflexivity.
Qed.

(** X3. A failure of a collaborator is passed on unchanged, and nothing of what
    was found before is returned: on accepted arguments, when the templates
    before number [index] have their detections and the correlation or the
    peak extraction of template [index] raises [e], [findMatches] raises
    [e]. *)
Theorem findMatches_propagates_failure image listTemplates listLabels
        score_threshold nObjects searchBox xOffset yOffset searched
        index template hitss e :
  valid_nObjects nObjects ->
  (forall labels,
      listLabels = Some labels -> length labels = length listTemplates) ->
  crop_to_searchBox image searchBox = (xOffset, yOffset, searched) ->
  nth_error listTemplates index = Some template ->
  Forall2 (template_hits searched listLabels score_threshold nObjects
                         xOffset yOffset)
          (enumerate (firstn index listTemplates)) hitss ->
  match_template searched template = inl e \/
  (exists corrMap,
      match_template searched template = inr corrMap /\
      snd (findMaximas corrMap score_threshold nObjects) = inl e) ->
  snd (findMatches image listTemplates listLabels score_threshold nObjects
                   searchBox) = inl e.
Proof.
  intros Hn Hlab Ec Hnth F Hfail. unfold findMatches. rewrite Ec.
  assert (Ht : py_ne_inf nObjects && py_type_ne_int nObjects = false).
  { destruct Hn as [-> | (z & -> & _)]; reflexivity. }
  assert (Hp : py_lt_one nObjects = false).
  { destruct Hn as [-> | (z & -> & Hz)]; [reflexivity|].
    simpl. apply Z.ltb_ge. lia. }
  rewrite Ht, Hp.
  assert (El : match listLabels with
               | Some labels =>
                   negb (Nat.eqb (length listTemplates) (length labels))
               | None => false
               end = false).
  { destruct listLabels as [labels|]; [|reflexivity].
    rewrite (Hlab labels eq_refl), Nat.eqb_refl. reflexivity. }
  rewrite El.
  assert (Hi : (index < length listTemplates)%nat).
  { apply nth_error_Some. congruence. }
  assert (Hlen : length (firstn index listTemplates) = index).
  { rewrite length_firstn. lia. }
  unfold enumerate in *.
  rewrite <- (firstn_skipn_middle _ _ Hnth) at 1.
  rewrite enumerate_from_app, for_each_app, snd_bind.
  assert (Hpre : snd (for_each (enumerate_from 0 (firstn index listTemplates))
                        (search_template searched listLabels score_threshold
                           nObjects xOffset yOffset) [])
                 = inr ([] ++ concat hitss)).
  { apply search_templates_returns.
    - intros labels E. rewrite Hlen, (Hlab labels E). lia.
    - exists hitss. split; [reflexivity | exact F]. }
  rewrite Hpre. cbn [enumerate_from for_each]. rewrite snd_bind.
  rewrite Hlen. cbn [Nat.add].
  erewrite search_template_raises; [reflexivity | exact Hfail].
Qed.

Lemma py_slice_whole {A : Type} (l : list A) stop :
  Z.of_nat (length l) <= stop -> py_slice 0 stop l = l.
Proof.
  intros H. unfold py_slice, slice_bound.
  destruct (Z.ltb_spec stop 0); [lia|]. cbn [Z.ltb Z.compare].
  rewrite (Z.min_l 0), (Z.min_r stop) by lia. rewrite Z.sub_0_r.
  cbn [Z.to_nat skipn]. apply firstn_all2. lia.
Qed.

(** X4. A search box at the origin that is at least as wide and as high as the
    image changes nothing: [findMatches] makes the same calls and returns the
    same pool as without a search box. *)
Theorem findMatches_searchBox_whole image listTemplates listLabels
        score_threshold nObjects w h :
  Z.of_nat (length image) <= h ->
  Forall (fun row => Z.of_nat (length row) <= w) image ->
  findMatches image listTemplates listLabels score_threshold nObjects
              (Some (0, 0, w, h))
  = findMatches image listTemplates listLabels score_threshold nObjects None.
Proof.
  intros Hh Hw. unfold findMatches, crop_to_searchBox, np_slice2.
  rewrite !Z.add_0_l, py_slice_whole by exact Hh.
  replace (map (py_slice 0 w) image) with image; [reflexivity|].
  induction Hw as [|row image Hrow Hw IH]; [reflexivity|].
  cbn [map]. rewrite py_slice_whole by exact Hrow. f_equal. apply IH.
  cbn [length] in Hh. lia.
Qed.

Lemma py_slice_length {A : Type} (l : list A) start width :
  0 <= start -> 0 <= width ->
  length (py_slice start (start + width) l)
  = Z.to_nat (Z.min width (Z.of_nat (length l) - start)).
Proof.
  intros Hs Hw. unfold py_slice, slice_bound.
  destruct (Z.ltb_spec start 0); [lia|].
  destruct (Z.ltb_spec (start + width) 0); [lia|].
  rewrite length_firstn, length_skipn. lia.
Qed.

Lemma py_slice_incl {A : Type} (l : list A) start stop x :
  In x (py_slice start stop l) -> In x l.
Proof.
  unfold py_slice. intros H.
  set (s := Z.to_nat (slice_bound (length l) start)) in *.
  set (n := Z.to_nat (slice_bound (length l) stop
                      - slice_bound (length l) start)) in *.
  rewrite <- (firstn_skipn s l). apply in_or_app. right.
  rewrite <- (firstn_skipn n (skipn s l)). apply in_or_app. now left.
Qed.

(** X5. The size of the region searched.  For a search box with non-negative
    origin and size on an image of [W] columns, the crop has
    [min(h, H - y)] rows of [min(w, W - x)] columns (none when that is
    negative): it is never larger than the box nor than the image. *)
Theorem crop_to_searchBox_shape image x y w h W :
  0 <= x -> 0 <= y -> 0 <= w -> 0 <= h ->
  Forall (fun row => length row = W) image ->
  length (snd (crop_to_searchBox image (Some (x, y, w, h))))
  = Z.to_nat (Z.min h (Z.of_nat (length image) - y)) /\
  Forall (fun row => length row = Z.to_nat (Z.min w (Z.of_nat W - x)))
         (snd (crop_to_searchBox image (Some (x, y, w, h)))).
Proof.
  intros Hx Hy Hw Hh Hrect. cbn [crop_to_searchBox snd]. unfold np_slice2.
  split.
  - rewrite length_map. now apply py_slice_length.
  - apply Forall_map, Forall_forall. intros row Hin.
    apply py_slice_incl in Hin. rewrite Forall_forall in Hrect.
    rewrite py_slice_length by assumption. now rewrite (Hrect row Hin).
Qed.

(** X6. The object count does not limit the candidates: for every integer
    [nObjects] of at least 2, [findMatches] makes the same calls and returns
    the same pool as for an unbounded count. *)
Theorem findMatches_count_unlimited image listTemplates listLabels
        score_threshold searchBox z :
  2 <= z ->
  findMatches image listTemplates listLabels score_threshold (PyInt z)
              searchBox
  = findMatches image listTemplates listLabels score_threshold py_inf
                searchBox.
Proof.
  intros Hz. unfold findMatches.
  change (py_ne_inf (PyInt z) && py_type_ne_int (PyInt z)) with false.
  change (py_ne_inf py_inf && py_type_ne_int py_inf) with false.
  change (py_lt_one py_inf) with false.
  assert (Hp : py_lt_one (PyInt z) = false) by (simpl; apply Z.ltb_ge; lia).
  rewrite Hp. cbv iota.
  destruct (match listLabels with
            | Some labels =>
                negb (Nat.eqb (length listTemplates) (length labels))
            | None => false
            end); [reflexivity|].
  destruct (crop_to_searchBox image searchBox) as [[xOffset yOffset] searched].
  apply for_each_ext. intros [index template] listHit.
  unfold search_template. apply bind_ext. intros corrMap.
  assert (Ef : findMaximas corrMap score_threshold (PyInt z)
               = findMaximas corrMap score_threshold py_inf).
  { unfold findMaximas.
    assert (E1 : py_eq_one (PyInt z) = false)
      by (simpl; apply Z.eqb_neq; lia).
    rewrite E1. reflexivity. }
  now rewrite Ef.
Qed.

(** When [maxOverlap] passes its check, [matchTemplates] is [findMatches]
    followed by [NMS]. *)
Lemma matchTemplates_composes image listTemplates listLabels
        score_threshold maxOverlap nObjects searchBox :
  PrimFloat.ltb maxOverlap 0%float = false ->
  PrimFloat.ltb 1%float maxOverlap = false ->
  matchTemplates image listTemplates listLabels score_threshold maxOverlap
                 nObjects searchBox
  = (fst (findMatches image listTemplates listLabels score_threshold
                      nObjects searchBox),
     match snd (findMatches image listTemplates listLabels score_threshold
                            nObjects searchBox) with
     | inl e => inl e
     | inr listHit => NMS listHit maxOverlap nObjects
     end).
Proof.
  intros H0 H1. unfold matchTemplates. rewrite H0, H1. cbn [orb].
  destruct (findMatches image listTemplates listLabels score_threshold
              nObjects searchBox) as [t [e | listHit]];
    unfold bind, lift, ret; cbn [fst snd]; [reflexivity|].
  destruct (NMS listHit maxOverlap nObjects); cbn [fst snd];
    now rewrite !app_nil_r.
Qed.

(** C5. A NaN [maxOverlap] lies outside [0, 1] (neither [0 <= nan] nor
    [nan <= 1] holds), but the check of [matchTemplates], which tests
    [maxOverlap < 0 or maxOverlap > 1], lets it through: with one template
    and otherwise valid arguments, no invalid-argument exception stops the
    call before the correlation, and the image and the template are handed
    to [match_template]. *)
Theorem matchTemplates_nan_overlap_accepted image template score_threshold :
  PrimFloat.leb 0%float nan = false /\
  PrimFloat.leb nan 1%float = false /\
  correlations
    (fst (matchTemplates image [template] None score_threshold nan py_inf
                         None))
  = [(image, template)] /\
  hd_error
    (fst (matchTemplates image [template] None score_threshold nan py_inf
                         None))
  = Some (CallMatchTemplate image template).
Proof.
  split; [reflexivity|]. split; [reflexivity|].
  rewrite matchTemplates_composes by reflexivity. cbn [fst].
  assert (Et : fst (findMatches image [template] None score_threshold py_inf
                                None)
               = template_calls image score_threshold py_inf template).
  { unfold findMatches.
    change (py_ne_inf py_inf && py_type_ne_int py_inf) with false.
    change (py_lt_one py_inf) with false.
    cbn [crop_to_searchBox enumerate enumerate_from for_each].
    rewrite fst_bind, search_template_trace.
    destruct (snd (search_template image None score_threshold py_inf 0 0
                     (0%nat, template) [])); cbn [ret fst];
      [reflexivity | apply app_nil_r]. }
  rewrite Et. split.
  - rewrite <- (app_nil_r (template_calls image score_threshold py_inf
                                          template)).
    exact (correlations_template_calls image score_threshold py_inf
                                       [template]).
  - reflexivity.
Qed.

(** X8. What the pool holds, in closed form: when [findMatches] returns, the
    boxes of the pool are, template after template, the boxes of the peaks
    found for the template, each at its peak moved by the origin of the
    search and of the size of the template; so the pool has one detection
    per peak. *)
Theorem findMatches_boxes image listTemplates listLabels score_threshold
        nObjects searchBox xOffset yOffset searched pool :
  crop_to_searchBox image searchBox = (xOffset, yOffset, searched) ->
  snd (findMatches image listTemplates listLabels score_threshold nObjects
                   searchBox) = inr pool ->
  map get_xywh pool
  = flat_map
      (fun template =>
         map (fun peak => (snd peak + xOffset, fst peak + yOffset,
                           Z.of_nat (snd (shape template)),
                           Z.of_nat (fst (shape template))))
             (peaks_of searched score_threshold nObjects template))
      listTemplates /\
  length pool
  = list_sum (map (fun template =>
                     length (peaks_of searched score_threshold nObjects
                                      template))
                  listTemplates).
Proof.
  intros Ec Er.
  destruct (findMatches_returns_pool _ _ _ _ _ _ Ec Er) as (hitss & -> & F).
  clear Er Ec. unfold enumerate in F. revert F. generalize 0%nat.
  revert hitss.
  induction listTemplates as [|template listTemplates IH]; intros hitss k F;
    cbn [enumerate_from] in F; inversion F as [|? hits ? hitss' Hh F']; subst;
    [split; reflexivity|].
  destruct (IH hitss' (S k) F') as [IHb IHl].
  destruct Hh as (cm & pk & Em & Ef & Fh). cbn [fst snd] in *.
  assert (Hpk : peaks_of searched score_threshold nObjects template = pk).
  { unfold peaks_of. now rewrite Em, Ef. }
  cbn [concat flat_map map list_sum].
  rewrite map_app, length_app, IHb, IHl, Hpk.
  assert (Hb : map get_xywh hits
               = map (fun peak => (snd peak + xOffset, fst peak + yOffset,
                                   Z.of_nat (snd (shape template)),
                                   Z.of_nat (fst (shape template)))) pk).
  { clear - Fh. induction Fh as [|p d pk hits Hd Fh IH]; [reflexivity|].
    cbn [map]. rewrite IH. f_equal. apply Hd. }
  split; [now rewrite Hb|].
  cbn [list_sum]. rewrite (Forall2_length Fh). reflexivity.
Qed.


(** ** Direct calls of [findMatches] and templates as large as the image *)

(** X10. [findMatches] called on its own rejects, before any correlation: a float
    [nObjects] other than infinity with a [TypeError], whatever the other
    arguments (also when it is below 1); an integer [nObjects] below 1 with
    a [ValueError], also when the labels do not match; and, for a valid
    [nObjects], labels that are not as many as the templates with a
    [ValueError]. *)
Theorem findMatches_rejects image listTemplates listLabels score_threshold
        nObjects searchBox :
  (forall f,
      nObjects = PyFloat f -> PrimFloat.eqb f infinity = false ->
      findMatches image listTemplates listLabels score_threshold nObjects
                  searchBox
      = raise (TypeError "nObjects must be an integer")) /\
  (forall z,
      nObjects = PyInt z -> z < 1 ->
      findMatches image listTemplates listLabels score_threshold nObjects
                  searchBox
      = raise (ValueError
                 "At least one object should be expected in the image")) /\
  (forall labels,
      valid_nObjects nObjects ->
      listLabels = Some labels ->
      length listTemplates <> length labels ->
      findMatches image listTemplates listLabels score_threshold nObjects
                  searchBox
      = raise (ValueError "There must be one label per template.")).
Proof.
  unfold findMatches. split; [|split].
  - intros f -> Hf. cbn [py_ne_inf py_type_ne_int]. now rewrite Hf.
  - intros z -> Hz. cbn [py_ne_inf py_type_ne_int py_lt_one andb].
    destruct (Z.ltb_spec z 1); [reflexivity | lia].
  - intros labels Hn -> Hl.
    assert (Ht : py_ne_inf nObjects && py_type_ne_int nObjects = false).
    { destruct Hn as [-> | (z & -> & _)]; reflexivity. }
    assert (Hp : py_lt_one nObjects = false).
    { destruct Hn as [-> | (z & -> & Hz)]; [reflexivity|].
      simpl. apply Z.ltb_ge. lia. }
    rewrite Ht, Hp.
    destruct (Nat.eqb_spec (length listTemplates) (length labels));
      [contradiction | reflexivity].
Qed.

(** X11. Templates as large as the image searched.  When the correlation of
    every template is a single value ([value template], on a 1x1 map), then
    on accepted arguments [findMatches] returns, after one correlation per
    template and no peak search, at most one detection per template: the one
    at the origin of the search, with that value as score, present exactly
    when the value is at least [score_threshold]. *)
Theorem findMatches_full_size_templates image listTemplates listLabels
        score_threshold nObjects searchBox xOffset yOffset searched
        (value : ndarray -> float) :
  valid_nObjects nObjects ->
  (forall labels,
      listLabels = Some labels -> length labels = length listTemplates) ->
  crop_to_searchBox image searchBox = (xOffset, yOffset, searched) ->
  (forall template,
      In template listTemplates ->
      match_template searched template = inr [[value template]]) ->
  findMatches image listTemplates listLabels score_threshold nObjects
              searchBox
  = (map (CallMatchTemplate searched) listTemplates,
     inr (flat_map
            (fun it =>
               if float_ge (value (snd it)) score_threshold
               then [mkBoundingBox
                       (xOffset, yOffset,
                        Z.of_nat (snd (shape (snd it))),
                        Z.of_nat (fst (shape (snd it))))
                       (value (snd it)) (Z.of_nat (fst it))
                       (label_of listLabels (fst it))]
               else [])
            (enumerate listTemplates))).
Proof.
  intros Hn Hlab Ec Hval.
  set (hit := fun it : nat * ndarray =>
                if float_ge (value (snd it)) score_threshold
                then [mkBoundingBox
                        (xOffset, yOffset,
                         Z.of_nat (snd (shape (snd it))),
                         Z.of_nat (fst (shape (snd it))))
                        (value (snd it)) (Z.of_nat (fst it))
                        (label_of listLabels (fst it))]
                else []).
  assert (F : Forall2 (template_hits searched listLabels score_threshold
                                     nObjects xOffset yOffset)
                      (enumerate listTemplates)
                      (map hit (enumerate listTemplates))).
  { assert (G : forall its : list (nat * ndarray),
               (forall it, In it its -> In (snd it) listTemplates) ->
               Forall2 (template_hits searched listLabels score_threshold
                                      nObjects xOffset yOffset)
                       its (map hit its)).
    { induction its as [|[index template] its IH]; intros Hin; cbn [map];
        constructor.
      - exists [[value template]],
               (if float_ge (value template) score_threshold
                then [(0, 0)] else []).
        cbn [fst snd]. split; [apply Hval, (Hin (index, template)); now left|].
        split.
        + unfold findMaximas. cbn [shape length hd shape_eqb fst snd Nat.eqb
                                   andb].
          change (np_getitem2 [[value template]] (0, 0))
            with (@inr exn float (value template)).
          now rewrite bind_lift_inr.
        + unfold hit. cbn [fst snd].
          destruct (float_ge (value template) score_threshold);
            constructor; [|constructor].
          repeat split.
      - apply IH. intros it H. apply Hin. now right. }
    apply G. intros [index template] H. apply in_enumerate in H.
    now apply nth_error_In in H. }
  assert (Hs : snd (findMatches image listTemplates listLabels
                                score_threshold nObjects searchBox)
               = inr (concat (map hit (enumerate listTemplates)))).
  { eapply findMatches_builds_pool; [exact Hn | | exact Ec | exact F].
    intros labels E. symmetry. exact (Hlab labels E). }
  destruct (findMatches_trace image listTemplates listLabels score_threshold
              nObjects searchBox Ec) as (k & _ & Ht & Hk).
  rewrite (Hk _ Hs), firstn_all in Ht.
  destruct (findMatches image listTemplates listLabels score_threshold
              nObjects searchBox) as [t r]. cbn [fst snd] in *.
  subst r. rewrite flat_map_concat_map. f_equal. rewrite Ht.
  clear - Hval. induction listTemplates as [|template l IH]; [reflexivity|].
  cbn [flat_map map]. rewrite IH by (intros t H; apply Hval; now right).
  unfold template_calls. rewrite (Hval template) by now left. reflexivity.
Qed.


(** ** Independence of the templates *)

Lemma findMatches_returns_checked image listTemplates listLabels
      score_threshold nObjects searchBox pool :
  snd (findMatches image listTemplates listLabels score_threshold nObjects
                   searchBox) = inr pool ->
  py_ne_inf nObjects && py_type_ne_int nObjects = false /\
  py_lt_one nObjects = false.
Proof.
  unfold findMatches.
  destruct (py_ne_inf nObjects && py_type_ne_int nObjects); [discriminate|].
  destruct (py_lt_one nObjects); [discriminate|]. auto.
Qed.

Lemma findMatches_builds_pool_checked image listTemplates listLabels
      score_threshold nObjects searchBox xOffset yOffset searched hitss :
  py_ne_inf nObjects && py_type_ne_int nObjects = false ->
  py_lt_one nObjects = false ->
  (forall labels, listLabels = Some labels ->
                  length listTemplates = length labels) ->
  crop_to_searchBox image searchBox = (xOffset, yOffset, searched) ->
  Forall2 (template_hits searched listLabels score_threshold nObjects
                         xOffset yOffset)
          (enumerate listTemplates) hitss ->
  snd (findMatches image listTemplates listLabels score_threshold nObjects
                   searchBox) = inr (concat hitss).
Proof.
  intros Ht Hp Hlab Ec F. unfold findMatches. rewrite Ec, Ht, Hp.
  assert (El : match listLabels with
               | Some labels =>
                   negb (Nat.eqb (length listTemplates) (length labels))
               | None => false
               end = false).
  { destruct listLabels as [labels|]; [|reflexivity].
    rewrite (Hlab labels eq_refl), Nat.eqb_refl. reflexivity. }
  rewrite El. unfold enumerate in *.
  apply search_templates_returns.
  - intros labels E. rewrite (Hlab labels E). lia.
  - exists hitss. split; [reflexivity | exact F].
Qed.

(** The detections of a template depend on the labels only through the
    label of the template, and on its index only through the index they
    carry. *)
Lemma template_hits_reindex image listLabels listLabels' score_threshold
      nObjects xOffset yOffset index template hits k :
  template_hits image listLabels score_threshold nObjects xOffset yOffset
                (index, template) hits ->
  label_of listLabels index = label_of listLabels' (index + k) ->
  template_hits image listLabels' score_threshold nObjects xOffset yOffset
                ((index + k)%nat, template) (map (reindex k) hits).
Proof.
  intros (cm & pk & Em & Ef & F) El. exists cm, pk. cbn [fst snd] in *.
  split; [exact Em|]. split; [exact Ef|].
  clear Ef. induction F as [|p d pk hits Hd F IH]; cbn [map];
    constructor; [|exact IH].
  destruct Hd as (Hb & Hs & Hi & Hl). unfold reindex.
  repeat split; cbn [get_xywh get_score get_template_index get_label];
    [exact Hb | exact Hs | rewrite Hi; lia | congruence].
Qed.

Lemma blocks_reindex image listLabels listLabels' score_threshold nObjects
      xOffset yOffset k listTemplates :
  forall j hitss,
    Forall2 (template_hits image listLabels score_threshold nObjects
                           xOffset yOffset)
            (enumerate_from j listTemplates) hitss ->
    (forall i, (j <= i < j + length listTemplates)%nat ->
               label_of listLabels i = label_of listLabels' (i + k)) ->
    Forall2 (template_hits image listLabels' score_threshold nObjects
                           xOffset yOffset)
            (enumerate_from (j + k) listTemplates)
            (map (map (reindex k)) hitss).
Proof.
  induction listTemplates as [|template listTemplates IH];
    intros j hitss F Hl; cbn [enumerate_from] in *;
    inversion F as [|? hits ? hitss' Hh F']; subst; cbn [map]; constructor.
  - apply template_hits_reindex with (listLabels := listLabels);
      [exact Hh|]. apply Hl. cbn [length]. lia.
  - apply (IH (S j) hitss' F'). intros i Hi. apply Hl. cbn [length]. lia.
Qed.

Lemma map_reindex_0 (l : list BoundingBox) : map (reindex 0) l = l.
Proof.
  induction l as [|d l IH]; cbn [map]; [reflexivity|]. rewrite IH. f_equal.
  destruct d; unfold reindex; cbn. now rewrite Z.add_0_r.
Qed.

(** X12. The templates do not influence each other.  When the search of the
    templates [listTemplates1] returns the pool [pool1] and that of
    [listTemplates2] the pool [pool2] (both without labels, or each with its
    own labels), the search of the two lists put together, with the labels
    put together, returns [pool1] followed by [pool2], the template indices
    of [pool2] moved up by the number of templates of the first list. *)
Theorem findMatches_app image listTemplates1 listTemplates2 listLabels1
        listLabels2 listLabels score_threshold nObjects searchBox
        pool1 pool2 :
  (listLabels1 = None /\ listLabels2 = None /\ listLabels = None) \/
  (exists labels1 labels2,
      listLabels1 = Some labels1 /\ listLabels2 = Some labels2 /\
      listLabels = Some (labels1 ++ labels2)) ->
  snd (findMatches image listTemplates1 listLabels1 score_threshold nObjects
                   searchBox) = inr pool1 ->
  snd (findMatches image listTemplates2 listLabels2 score_threshold nObjects
                   searchBox) = inr pool2 ->
  snd (findMatches image (listTemplates1 ++ listTemplates2) listLabels
                   score_threshold nObjects searchBox)
  = inr (pool1 ++ map (reindex (length listTemplates1)) pool2).
Proof.
  intros Hsplit E1 E2.
  destruct (crop_to_searchBox image searchBox) as [[xOffset yOffset] searched]
    eqn:Ec.
  destruct (findMatches_returns_checked _ _ _ _ _ _ E1) as [Ht Hp].
  assert (Hl1 : forall labels, listLabels1 = Some labels ->
                               length listTemplates1 = length labels)
    by (intros labels E; eapply findMatches_returns_labelled;
        [exact E1 | exact E]).
  assert (Hl2 : forall labels, listLabels2 = Some labels ->
                               length listTemplates2 = length labels)
    by (intros labels E; eapply findMatches_returns_labelled;
        [exact E2 | exact E]).
  destruct (findMatches_returns_pool _ _ _ _ _ _ Ec E1) as (h1 & -> & F1).
  destruct (findMatches_returns_pool _ _ _ _ _ _ Ec E2) as (h2 & -> & F2).
  unfold enumerate in F1, F2.
  assert (Hlab1 : forall i, (0 <= i < 0 + length listTemplates1)%nat ->
                            label_of listLabels1 i
                            = label_of listLabels (i + 0)).
  { intros i Hi. rewrite Nat.add_0_r.
    destruct Hsplit as [(-> & _ & ->) | (l1 & l2 & -> & _ & ->)];
      [reflexivity|].
    cbn [label_of]. rewrite app_nth1; [reflexivity|].
    rewrite <- (Hl1 l1 eq_refl). lia. }
  assert (Hlab2 : forall i, (0 <= i < 0 + length listTemplates2)%nat ->
                            label_of listLabels2 i
                            = label_of listLabels
                                       (i + length listTemplates1)).
  { intros i Hi.
    destruct Hsplit as [(_ & -> & ->) | (l1 & l2 & El1 & -> & ->)];
      [reflexivity|].
    cbn [label_of]. rewrite (Hl1 l1 El1), Nat.add_comm.
    now rewrite app_nth2_plus. }
  pose proof (@blocks_reindex searched listLabels1 listLabels score_threshold
                nObjects xOffset yOffset 0%nat listTemplates1 0%nat h1
                F1 Hlab1) as G1.
  pose proof (@blocks_reindex searched listLabels2 listLabels score_threshold
                nObjects xOffset yOffset (length listTemplates1)
                listTemplates2 0%nat h2 F2 Hlab2) as G2.
  cbn [Nat.add] in G1, G2.
  rewrite concat_map.
  replace (concat h1) with (concat (map (map (reindex 0)) h1))
    by (rewrite <- concat_map; apply map_reindex_0).
  rewrite <- concat_app.
  apply findMatches_builds_pool_checked
    with (xOffset := xOffset) (yOffset := yOffset) (searched := searched);
    [exact Ht | exact Hp | | exact Ec |].
  - intros labels El.
    destruct Hsplit as [(_ & _ & E) | (l1 & l2 & El1 & El2 & E)];
      [congruence|].
    rewrite E in El. inversion El; subst labels.
    rewrite !length_app, (Hl1 l1 El1), (Hl2 l2 El2). reflexivity.
  - unfold enumerate. rewrite enumerate_from_app. cbn [Nat.add].
    apply Forall2_app; assumption.
Qed.


(** ** A search box that starts left of the image *)

(** A slice keeps the elements at the positions between its two bounds, as
    [slice_bound] resolves them. *)
Lemma py_slice_resolved {A : Type} (l : list A) start stop :
  py_slice start stop l
  = select_range (slice_bound (length l) start)
                 (slice_bound (length l) stop) l.
Proof.
  rewrite select_range_firstn_skipn. unfold py_slice.
  assert (Hs : 0 <= slice_bound (length l) start).
  { unfold slice_bound. cbv zeta. destruct (Z.ltb_spec start 0); lia. }
  assert (He : 0 <= slice_bound (length l) stop).
  { unfold slice_bound. cbv zeta. destruct (Z.ltb_spec stop 0); lia. }
  f_equal. lia.
Qed.

Lemma select_range_min {A : Type} (l : list A) lo hi :
  select_range lo (Z.min hi (Z.of_nat (length l))) l = select_range lo hi l.
Proof.
  rewrite !select_range_firstn_skipn.
  destruct (Z_le_gt_dec hi (Z.of_nat (length l))) as [H | H].
  - now rewrite Z.min_l by lia.
  - rewrite Z.min_r by lia.
    rewrite !firstn_all2; [reflexivity | |]; rewrite length_skipn; lia.
Qed.

(** X13. A negative [x] is counted from the right edge.  On an image of [W]
    columns, a search box with [-W <= x < 0] that reaches the column 0
    ([0 <= x + w]) is cropped to the columns from [W + x] up to [x + w]
    (none when [x + w <= W + x]), not to the columns from 0 up to [x + w];
    the offset applied to the detections is still [x]. *)
Theorem crop_to_searchBox_negative_x image x y w h W :
  Forall (fun row => length row = W) image ->
  - Z.of_nat W <= x < 0 -> 0 <= x + w -> 0 <= y -> 0 <= h ->
  crop_to_searchBox image (Some (x, y, w, h))
  = (x, y,
     map (select_range (Z.of_nat W + x) (x + w))
         (select_range y (y + h) image)).
Proof.
  intros Hrect Hx Hxw Hy Hh. cbn [crop_to_searchBox]. unfold np_slice2.
  f_equal. rewrite (py_slice_select_range image) by lia.
  apply map_ext_in. intros row Hin.
  assert (Hrow : length row = W).
  { rewrite Forall_forall in Hrect. apply Hrect.
    rewrite select_range_firstn_skipn in Hin.
    rewrite <- (firstn_skipn (Z.to_nat y) image). apply in_or_app. right.
    rewrite <- (firstn_skipn (Z.to_nat (y + h) - Z.to_nat y)
                             (skipn (Z.to_nat y) image)).
    apply in_or_app. now left. }
  rewrite py_slice_resolved, Hrow. unfold slice_bound.
  destruct (Z.ltb_spec x 0); [|lia].
  destruct (Z.ltb_spec (x + w) 0); [lia|].
  rewrite Z.max_l by lia. rewrite <- Hrow, select_range_min.
  f_equal. lia.
Qed.


End PipelineProperties.

(** ** The legend *)

Section LegendProperties.
Variables outline color : Type.
Variable palette : list color.
Variable get_lists_xy : BoundingBox -> outline.

Lemma dict_get_set {V : Type} (k k' : string) (v : V) (d : list (string * V)) :
  dict_get k' (dict_set k v d)
  = if String.eqb k k' then Some v else dict_get k' d.
Proof.
  induction d as [|[k0 v0] d IH]; cbn [dict_set dict_get].
  - reflexivity.
  - destruct (String.eqb_spec k0 k) as [-> | N]; cbn [dict_get].
    + now destruct (String.eqb k k').
    + rewrite IH. destruct (String.eqb_spec k0 k') as [-> | N'];
        [|reflexivity].
      destruct (String.eqb_spec k k') as [-> | _]; [contradiction|reflexivity].
Qed.

Lemma dict_get_keys {V : Type} (k : string) (d : list (string * V)) :
  In k (map fst d) <-> dict_get k d <> None.
Proof.
  induction d as [|[k0 v0] d IH]; cbn [map fst In dict_get].
  - split; [contradiction | intros H; now apply H].
  - destruct (String.eqb_spec k0 k) as [-> | N].
    + split; [discriminate | now left].
    + rewrite <- IH. split; [intros [E | H]; [contradiction | exact H]|].
      intros H. now right.
Qed.

Lemma dict_set_keys {V : Type} (k : string) (v : V) (d : list (string * V)) :
  NoDup (map fst d) -> NoDup (map fst (dict_set k v d)).
Proof.
  induction d as [|[k0 v0] d IH]; cbn [dict_set map fst]; intros H.
  - constructor; [intros [] | constructor].
  - inversion H as [|? ? Hn Hd]; subst.
    destruct (String.eqb_spec k0 k) as [-> | N]; cbn [map fst].
    + now constructor.
    + constructor; [|now apply IH].
      rewrite dict_get_keys, dict_get_set.
      destruct (String.eqb_spec k k0) as [-> | _]; [contradiction|].
      now rewrite <- dict_get_keys.
Qed.

Lemma find_app {A : Type} (f : A -> bool) (l1 l2 : list A) :
  find f (l1 ++ l2)
  = match find f l1 with Some x => Some x | None => find f l2 end.
Proof.
  induction l1 as [|a l1 IH]; cbn [app find]; [reflexivity|].
  now destruct (f a).
Qed.

(** One detection drawn with the legend on: its line is added, and its
    label, unless empty, is set to its color in [mapLabelColor]. *)
Lemma plot_detection_legend thickness d st :
  palette <> [] ->
  exists c,
    palette_color palette d = Some c /\
    plot_detection palette get_lists_xy thickness true d st
    = ret (fst st ++ [mkPlot (get_lists_xy d) thickness c],
           if String.eqb (get_label d) "" then snd st
           else dict_set (get_label d) c (snd st)).
Proof.
  intros Hne. unfold plot_detection, py_mod, palette_color.
  assert (Hlen : 0 < Z.of_nat (length palette)).
  { destruct palette; [contradiction | simpl; lia]. }
  destruct (Z.eqb_spec (Z.of_nat (length palette)) 0) as [E | _]; [lia|].
  rewrite bind_lift_inr.
  set (i := get_template_index d mod Z.of_nat (length palette)).
  assert (Hi : 0 <= i < Z.of_nat (length palette))
    by (apply Z.mod_pos_bound; exact Hlen).
  unfold py_getitem, py_axis.
  destruct (Z.leb_spec 0 i); [|lia].
  destruct (Z.ltb_spec i (Z.of_nat (length palette))); [|lia]. cbn [andb].
  destruct (nth_error palette (Z.to_nat i)) as [c|] eqn:En.
  - rewrite bind_lift_inr. exists c. split; [reflexivity|].
    now destruct (String.eqb (get_label d) "").
  - apply nth_error_None in En. lia.
Qed.

(** The loop with the legend on: [mapLabelColor] ends with, for each
    non-empty label, the color of the last detection that carries it, and
    keeps one entry per label. *)
Lemma legend_loop thickness listDetections :
  palette <> [] ->
  forall st,
  exists lines mapLabelColor,
    for_each listDetections
      (plot_detection palette get_lists_xy thickness true) st
    = ret (lines, mapLabelColor) /\
    (NoDup (map fst (snd st)) -> NoDup (map fst mapLabelColor)) /\
    (forall l,
        dict_get l mapLabelColor
        = if String.eqb l "" then dict_get l (snd st)
          else match last_labelled l listDetections with
               | Some d => palette_color palette d
               | None => dict_get l (snd st)
               end).
Proof.
  intros Hne. induction listDetections as [|d listDetections IH]; intros st.
  - exists (fst st), (snd st). cbn [for_each].
    split; [now destruct st|]. split; [auto|].
    intros l. unfold last_labelled. cbn [rev find].
    now destruct (String.eqb l "").
  - destruct (plot_detection_legend thickness d st Hne) as (c & Hc & E).
    cbn [for_each]. rewrite E, bind_ret_l.
    match goal with
    | |- context [for_each _ _ ?s] => destruct (IH s) as (lines & m & E' & Hk & Hg)
    end.
    exists lines, m. split; [exact E'|]. cbn [snd] in Hk, Hg. split.
    + intros Hnd. apply Hk.
      destruct (String.eqb (get_label d) ""); [exact Hnd|].
      now apply dict_set_keys.
    + intros l. rewrite Hg. unfold last_labelled. cbn [rev].
      rewrite find_app. cbn [find].
      destruct (String.eqb_spec l "") as [-> | Nl].
      * destruct (String.eqb_spec (get_label d) "") as [_ | N];
          [reflexivity|].
        rewrite dict_get_set.
        destruct (String.eqb_spec (get_label d) "") as [? | _];
          [contradiction | reflexivity].
      * destruct (find (fun d0 => String.eqb (get_label d0) l)
                       (rev listDetections)); [reflexivity|].
        destruct (String.eqb_spec (get_label d) "") as [Ed | N].
        -- destruct (String.eqb_spec (get_label d) l) as [El | _];
             [congruence | reflexivity].
        -- rewrite dict_get_set.
           destruct (String.eqb_spec (get_label d) l); [exact (eq_sym Hc)|].
           reflexivity.
Qed.

(** X9. The legend of [plotDetections].  With a non-empty palette and the
    legend asked for: when no detection has a label, no legend is added and
    the warning is issued; otherwise the legend has exactly one entry per
    non-empty label, with the color of the last detection that carries the
    label, and no warning is issued.  Without the legend asked for, there is
    neither legend nor warning. *)
Theorem plotDetections_legend image listDetections thickness :
  palette <> [] ->
  (exists fig,
      plotDetections palette get_lists_xy image listDetections thickness true
      = ret fig /\
      (fig_legend fig = None <->
       Forall (fun d => get_label d = EmptyString) listDetections) /\
      (fig_warned fig = true <-> fig_legend fig = None) /\
      (forall legend,
          fig_legend fig = Some legend ->
          NoDup (map fst legend) /\
          ~ In EmptyString (map fst legend) /\
          (forall l,
              l <> EmptyString ->
              dict_get l legend
              = match last_labelled l listDetections with
                | Some d => palette_color palette d
                | None => None
                end))) /\
  (exists fig,
      plotDetections palette get_lists_xy image listDetections thickness false
      = ret fig /\
      fig_legend fig = None /\ fig_warned fig = false).
Proof.
  intros Hne. split.
  - destruct (legend_loop thickness listDetections Hne ([], []))
      as (lines & m & E & Hk & Hg).
    cbn [snd dict_get map] in Hk, Hg.
    assert (Hnd : NoDup (map fst m)) by (apply Hk; constructor).
    assert (Hget : forall l,
               l <> EmptyString ->
               dict_get l m = match last_labelled l listDetections with
                              | Some d => palette_color palette d
                              | None => None
                              end).
    { intros l Nl. rewrite Hg.
      destruct (String.eqb_spec l "") as [? | _]; [contradiction|].
      reflexivity. }
    assert (Hempty : ~ In EmptyString (map fst m)).
    { rewrite dict_get_keys, Hg. cbn. auto. }
    assert (Hnil : m = [] <->
                   Forall (fun d => get_label d = EmptyString) listDetections).
    { split.
      - intros ->. apply Forall_forall. intros d Hin.
        destruct (String.eqb_spec (get_label d) "") as [Ed | N]; [exact Ed|].
        exfalso. specialize (Hget (get_label d) N). cbn [dict_get] in Hget.
        unfold last_labelled in Hget.
        destruct (find (fun d0 => String.eqb (get_label d0) (get_label d))
                       (rev listDetections)) as [d'|] eqn:Ef.
        + destruct (plot_detection_legend thickness d' ([], []) Hne)
            as (c & Hc & _). congruence.
        + apply find_none with (x := d) in Ef; [|now apply in_rev in Hin].
          cbn beta in Ef. now rewrite String.eqb_refl in Ef.
      - intros Hall. destruct m as [|[k v] m']; [reflexivity|]. exfalso.
        assert (Hin : In k (map fst ((k, v) :: m'))) by now left.
        destruct (String.eqb_spec k "") as [-> | Nk]; [now apply Hempty|].
        apply dict_get_keys in Hin. apply Hin. rewrite (Hget k Nk).
        unfold last_labelled.
        destruct (find (fun d0 => String.eqb (get_label d0) k)
                       (rev listDetections)) as [d'|] eqn:Ef; [|reflexivity].
        apply find_some in Ef. destruct Ef as [Hin' Hlab].
        apply in_rev in Hin'. rewrite Forall_forall in Hall.
        rewrite (Hall d' Hin') in Hlab. apply String.eqb_eq in Hlab.
        congruence. }
    unfold plotDetections. rewrite E, bind_ret_l. cbn [fst snd].
    destruct m as [|kv m'].
    + eexists. split; [reflexivity|]. cbn [fig_legend fig_warned].
      split; [|split].
      * split; [intros _; now apply Hnil | reflexivity].
      * split; reflexivity.
      * discriminate.
    + eexists. split; [reflexivity|]. cbn [fig_legend fig_warned].
      split; [|split].
      * split; [discriminate|]. intros Hall. apply Hnil in Hall. discriminate.
      * split; discriminate.
      * intros legend El. inversion El; subst legend.
        split; [exact Hnd|]. split; [exact Hempty | exact Hget].
  - destruct (plot_loop_returns get_lists_xy thickness false listDetections
                Hne ([], []))
      as (lines & m & E & _).
    unfold plotDetections. rewrite E, bind_ret_l. cbn [fst snd].
    eexists. split; [reflexivity|]. split; reflexivity.
Qed.


End LegendProperties.

(** * The properties on concrete runs *)

Lemma findMaximas_peak_count_witness :
  exists num_peaks,
    @findMaximas demo_collaborators demo_surface 0.5%float (PyInt 3)
    = ([CallPeakLocalMax demo_surface 0.5%float false num_peaks],
       inr [(5, 5)]) /\
    (PyInt 3 = PyInt 1 -> num_peaks = PyInt 1) /\
    (py_eq_one (PyInt 3) = false -> num_peaks = py_inf) /\
    (forall z, PyInt 3 = PyInt z -> 1 < z ->
               num_peaks = py_inf /\ num_peaks <> PyInt z).
Proof.
  apply (@findMaximas_peak_count demo_collaborators demo_surface 0.5%float
                                 (PyInt 3)).
  vm_compute. discriminate.
Defined.



(** The scenario of the specification: two labels for three templates. *)
Lemma matchTemplates_fails_fast_witness :
  exists e,
    @matchTemplates demo_collaborators (constant_array 4 4 0%float)
                    [[[0%float]]; [[0%float]]; [[0%float]]]
                    (Some ["cat"; "dog"]%string) 0.5%float 0.25%float py_inf
                    None = ([], inl e) /\
    invalid_argument e.
Proof.
  apply (@matchTemplates_fails_fast demo_collaborators).
  right; right; left. exists ["cat"; "dog"]%string.
  split; [reflexivity | simpl; lia].
Defined.

Lemma findMatches_no_template_witness :
  @findMatches demo_collaborators (constant_array 4 4 0%float) [] (Some [])
               0.5%float (PyInt 2) (Some (1, 1, 2, 2)) = ([], inr []).
Proof.
  apply (@findMatches_no_template demo_collaborators).
  - right. exists 2. split; [reflexivity | lia].
  - right. reflexivity.
Defined.

(** The scenario of the specification: with the search region
    (20, 20, 30, 30), the peak found at the local coordinate (5, 5) gives a
    detection at (25, 25). *)
Lemma findMatches_detections_witness :
  exists d,
    In d [mkBoundingBox (25, 25, 12, 10) 0.9%float 0 ""] /\
    get_xywh d = (5 + 20, 5 + 20, 12, 10) /\
    np_getitem2 demo_surface (5, 5) = inr (get_score d) /\
    get_template_index d = 0 /\
    get_label d = EmptyString.
Proof.
  destruct (@findMatches_detections demo_collaborators
              (constant_array 60 60 0%float) [constant_array 10 12 0%float]
              None 0.5%float py_inf (Some (20, 20, 30, 30))
              20 20 (constant_array 30 30 0%float) eq_refl) as (Hpool & _).
  destruct (Hpool [mkBoundingBox (25, 25, 12, 10) 0.9%float 0 ""] eq_refl)
    as (Hall & _).
  exact (Hall 0%nat (constant_array 10 12 0%float) demo_surface [(5, 5)] (5, 5)
              eq_refl eq_refl eq_refl (or_introl eq_refl)).
Defined.

(** Two templates with two peaks each: the pool lists the two detections of
    the first template, then the two of the second (so the detection at
    position 1, of template 0, comes before the one at position 2, of
    template 1), and the detections of the second template follow the order
    of its peaks. *)
Lemma findMatches_pool_order_witness :
  (1 < 2)%nat /\
  Forall2 (is_hit [[0.5; 0.6; 0.7; 0.8]; [0.5; 0.6; 0.7; 0.8]]%float
                  0 0 4 1 1 "b")
          [(1, 2); (0, 3)]
          [mkBoundingBox (2, 1, 4, 1) 0.7%float 1 "b";
           mkBoundingBox (3, 0, 4, 1) 0.8%float 1 "b"].
Proof.
  destruct (@findMatches_pool_order echo_collaborators
              (constant_array 3 3 0%float)
              [[[0.1; 0.2; 0.3; 0.4]]; [[0.5; 0.6; 0.7; 0.8]]]%float
              (Some ["a"; "b"]%string) 0.5%float (PyInt 3) None
              0 0 (constant_array 3 3 0%float)
              [mkBoundingBox (2, 1, 4, 1) 0.3%float 0 "a";
               mkBoundingBox (3, 0, 4, 1) 0.4%float 0 "a";
               mkBoundingBox (2, 1, 4, 1) 0.7%float 1 "b";
               mkBoundingBox (3, 0, 4, 1) 0.8%float 1 "b"]
              eq_refl eq_refl) as [Horder Hblock].
  split.
  - apply (Horder 1%nat 2%nat
                  (mkBoundingBox (3, 0, 4, 1) 0.4%float 0 "a")
                  (mkBoundingBox (2, 1, 4, 1) 0.7%float 1 "b"));
      [reflexivity | reflexivity | simpl; lia].
  - exact (Hblock 1%nat [[0.5; 0.6; 0.7; 0.8]]%float
                  [[0.5; 0.6; 0.7; 0.8]; [0.5; 0.6; 0.7; 0.8]]%float
                  [(1, 2); (0, 3)] eq_refl eq_refl eq_refl).
Defined.

(** A 4x4 search box at (2, 1) on a 3x4 image reaches past the right and the
    bottom edge: the two rows and two columns inside the image are searched,
    and the peaks (1, 2) and (0, 3) are reported at (4, 2) and (5, 1). *)
Lemma findMatches_searchBox_clipped_witness :
  crop_to_searchBox
    [[0.1; 0.2; 0.3; 0.4]; [0.5; 0.6; 0.7; 0.8]; [0.9; 1.0; 1.1; 1.2]]%float
    (Some (2, 1, 4, 4))
  = (2, 1, [[0.7; 0.8]; [1.1; 1.2]]%float) /\
  @findMatches echo_collaborators
    [[0.1; 0.2; 0.3; 0.4]; [0.5; 0.6; 0.7; 0.8]; [0.9; 1.0; 1.1; 1.2]]%float
    [[[0.1; 0.2; 0.3; 0.4]]]%float None 0.5%float py_inf (Some (2, 1, 4, 4))
  = ([CallMatchTemplate [[0.7; 0.8]; [1.1; 1.2]]%float
                        [[0.1; 0.2; 0.3; 0.4]]%float;
      CallPeakLocalMax [[0.1; 0.2; 0.3; 0.4]; [0.1; 0.2; 0.3; 0.4]]%float
                       0.5%float false py_inf],
     inr [mkBoundingBox (4, 2, 4, 1) 0.3%float 0 "";
          mkBoundingBox (5, 1, 4, 1) 0.4%float 0 ""]).
Proof.
  apply (@findMatches_searchBox_clipped echo_collaborators
           [[0.1; 0.2; 0.3; 0.4]; [0.5; 0.6; 0.7; 0.8];
            [0.9; 1.0; 1.1; 1.2]]%float
           [[[0.1; 0.2; 0.3; 0.4]]]%float None 0.5%float py_inf 2 1 4 4);
    lia.
Defined.

(** The crop [image[0:1, -2:1]] of a 1x4 image counts the start -2 from the
    right edge and is a row with no pixel, while the box (-2, 0, 3, 1) meets
    the image in its first pixel. *)
Example crop_negative_origin_values :
  snd (crop_to_searchBox [[0.1; 0.2; 0.3; 0.4]]%float (Some (-2, 0, 3, 1)))
  = [[]] /\
  box_intersection [[0.1; 0.2; 0.3; 0.4]]%float (-2, 0, 3, 1) = [[0.1%float]].
Proof. split; reflexivity. Qed.

(** C9, for a search box that starts left of the image: on a 1x4 image the
    crop to the box (-2, 0, 3, 1) is not the intersection of the box with the
    image. *)
Lemma crop_negative_origin_not_intersection :
  snd (crop_to_searchBox [[0.1; 0.2; 0.3; 0.4]]%float (Some (-2, 0, 3, 1)))
  <> box_intersection [[0.1; 0.2; 0.3; 0.4]]%float (-2, 0, 3, 1).
Proof. vm_compute. discriminate. Qed.

(** Three detections on a palette of three colors: the template indices 4
    and 1 share the color at position 1, the index 3 has the color at
    position 0. *)
Lemma plotDetections_colors_witness :
  exists fig,
    plotDetections ["teal"; "yellow"; "violet"]%string get_xywh
      (constant_array 12 12 0%float)
      [mkBoundingBox (0, 0, 2, 2) 0.9%float 4 "a";
       mkBoundingBox (5, 5, 2, 2) 0.8%float 1 "";
       mkBoundingBox (9, 9, 2, 2) 0.7%float 3 "b"] 2 true
    = ret fig /\
    map (@plot_color _ _) (fig_lines fig)
    = ["yellow"; "yellow"; "teal"]%string.
Proof.
  destruct (@plotDetections_colors (Z * Z * Z * Z) string
              ["teal"; "yellow"; "violet"]%string get_xywh
              (constant_array 12 12 0%float)
              [mkBoundingBox (0, 0, 2, 2) 0.9%float 4 "a";
               mkBoundingBox (5, 5, 2, 2) 0.8%float 1 "";
               mkBoundingBox (9, 9, 2, 2) 0.7%float 3 "b"] 2 true)
    as (fig & E & _).
  - discriminate.
  - exists fig. split; [exact E|].
    vm_compute in E. inversion E. reflexivity.
Defined.

(** Two templates searched in a 2x2 crop: two correlations, of the crop with
    each template in turn. *)
Lemma findMatches_correlations_witness :
  exists k,
    (k <= 2)%nat /\
    correlations
      (fst (@findMatches echo_collaborators
              [[0.1; 0.2; 0.3]; [0.4; 0.5; 0.6]; [0.7; 0.8; 0.9]]%float
              [[[0.1; 0.2; 0.3; 0.4]]; [[0.5; 0.6; 0.7; 0.8]]]%float
              None 0.5%float py_inf (Some (1, 1, 2, 2))))
    = map (pair [[0.5; 0.6]; [0.8; 0.9]]%float)
          (firstn k [[[0.1; 0.2; 0.3; 0.4]]; [[0.5; 0.6; 0.7; 0.8]]]%float) /\
    (forall pool,
        snd (@findMatches echo_collaborators
               [[0.1; 0.2; 0.3]; [0.4; 0.5; 0.6]; [0.7; 0.8; 0.9]]%float
               [[[0.1; 0.2; 0.3; 0.4]]; [[0.5; 0.6; 0.7; 0.8]]]%float
               None 0.5%float py_inf (Some (1, 1, 2, 2))) = inr pool ->
        correlations
          (fst (@findMatches echo_collaborators
                  [[0.1; 0.2; 0.3]; [0.4; 0.5; 0.6]; [0.7; 0.8; 0.9]]%float
                  [[[0.1; 0.2; 0.3; 0.4]]; [[0.5; 0.6; 0.7; 0.8]]]%float
                  None 0.5%float py_inf (Some (1, 1, 2, 2))))
        = map (pair [[0.5; 0.6]; [0.8; 0.9]]%float)
              [[[0.1; 0.2; 0.3; 0.4]]; [[0.5; 0.6; 0.7; 0.8]]]%float).
Proof.
  apply (@findMatches_correlations echo_collaborators
           [[0.1; 0.2; 0.3]; [0.4; 0.5; 0.6]; [0.7; 0.8; 0.9]]%float
           [[[0.1; 0.2; 0.3; 0.4]]; [[0.5; 0.6; 0.7; 0.8]]]%float
           None 0.5%float py_inf (Some (1, 1, 2, 2)) 1 1
           [[0.5; 0.6]; [0.8; 0.9]]%float).
  reflexivity.
Defined.

(** The peak search of a search for three objects asks for an unbounded
    number of peaks, with the caller's threshold. *)
Lemma findMatches_peak_searches_witness :
  (exists template,
      In template [[[0.1; 0.2; 0.3; 0.4]]]%float /\
      @match_template echo_collaborators (constant_array 3 3 0%float) template
      = inr [[0.1; 0.2; 0.3; 0.4]; [0.1; 0.2; 0.3; 0.4]]%float) /\
  shape [[0.1; 0.2; 0.3; 0.4]; [0.1; 0.2; 0.3; 0.4]]%float
  <> (1%nat, 1%nat) /\
  0.5%float = 0.5%float /\
  false = false /\
  py_inf = (if py_eq_one (PyInt 3) then PyInt 1 else py_inf).
Proof.
  apply (@findMatches_peak_searches echo_collaborators
           (constant_array 3 3 0%float) [[[0.1; 0.2; 0.3; 0.4]]]%float
           None 0.5%float (PyInt 3) None 0 0 (constant_array 3 3 0%float)
           eq_refl).
  vm_compute. right. left. reflexivity.
Defined.

(** The second template is higher than the image: its correlation raises,
    and so does [findMatches], although the first template had two hits. *)
Lemma findMatches_propagates_failure_witness :
  snd (@findMatches strict_collaborators
         (constant_array 2 4 0%float)
         [[[0.1; 0.2; 0.3; 0.4]]; constant_array 3 4 0%float]%float
         None 0.5%float py_inf None)
  = inl (ValueError "Image must be larger than template.").
Proof.
  destruct (@findMatches_returns_pool strict_collaborators
              (constant_array 2 4 0%float) [[[0.1; 0.2; 0.3; 0.4]]]%float
              None 0.5%float py_inf None 0 0 (constant_array 2 4 0%float)
              [mkBoundingBox (2, 1, 4, 1) 0.3%float 0 "";
               mkBoundingBox (3, 0, 4, 1) 0.4%float 0 ""]
              eq_refl eq_refl) as (hitss & _ & F).
  apply (@findMatches_propagates_failure strict_collaborators
           (constant_array 2 4 0%float)
           [[[0.1; 0.2; 0.3; 0.4]]; constant_array 3 4 0%float]%float
           None 0.5%float py_inf None 0 0 (constant_array 2 4 0%float)
           1%nat (constant_array 3 4 0%float) hitss).
  - left. reflexivity.
  - discriminate.
  - reflexivity.
  - reflexivity.
  - exact F.
  - left. reflexivity.
Defined.

Lemma findMatches_searchBox_whole_witness :
  @findMatches echo_collaborators
    [[0.1; 0.2; 0.3]; [0.4; 0.5; 0.6]]%float [[[0.1; 0.2; 0.3; 0.4]]]%float
    None 0.5%float py_inf (Some (0, 0, 5, 4))
  = @findMatches echo_collaborators
      [[0.1; 0.2; 0.3]; [0.4; 0.5; 0.6]]%float [[[0.1; 0.2; 0.3; 0.4]]]%float
      None 0.5%float py_inf None.
Proof.
  apply (@findMatches_searchBox_whole echo_collaborators).
  - simpl. lia.
  - repeat constructor; simpl; lia.
Defined.

(** A 4x4 box at (2, 1) on an image of 3 rows and 4 columns: 2 rows of 2
    columns are searched. *)
Lemma crop_to_searchBox_shape_witness :
  length (snd (crop_to_searchBox (constant_array 3 4 0%float)
                                 (Some (2, 1, 4, 4))))
  = Z.to_nat (Z.min 4 (Z.of_nat (length (constant_array 3 4 0%float)) - 1)) /\
  Forall (fun row => length row = Z.to_nat (Z.min 4 (Z.of_nat 4 - 2)))
         (snd (crop_to_searchBox (constant_array 3 4 0%float)
                                 (Some (2, 1, 4, 4)))).
Proof.
  apply (@crop_to_searchBox_shape (constant_array 3 4 0%float) 2 1 4 4 4);
    try lia.
  repeat constructor.
Defined.

Lemma findMatches_count_unlimited_witness :
  @findMatches echo_collaborators (constant_array 3 3 0%float)
    [[[0.1; 0.2; 0.3; 0.4]]]%float None 0.5%float (PyInt 5) None
  = @findMatches echo_collaborators (constant_array 3 3 0%float)
      [[[0.1; 0.2; 0.3; 0.4]]]%float None 0.5%float py_inf None.
Proof.
  apply (@findMatches_count_unlimited echo_collaborators). lia.
Defined.


(** Two templates with two peaks each: four boxes. *)
Lemma findMatches_boxes_witness :
  map get_xywh
      [mkBoundingBox (2, 1, 4, 1) 0.3%float 0 "a";
       mkBoundingBox (3, 0, 4, 1) 0.4%float 0 "a";
       mkBoundingBox (2, 1, 4, 1) 0.7%float 1 "b";
       mkBoundingBox (3, 0, 4, 1) 0.8%float 1 "b"]
  = [(2, 1, 4, 1); (3, 0, 4, 1); (2, 1, 4, 1); (3, 0, 4, 1)] /\
  length [mkBoundingBox (2, 1, 4, 1) 0.3%float 0 "a";
          mkBoundingBox (3, 0, 4, 1) 0.4%float 0 "a";
          mkBoundingBox (2, 1, 4, 1) 0.7%float 1 "b";
          mkBoundingBox (3, 0, 4, 1) 0.8%float 1 "b"] = 4%nat.
Proof.
  exact (@findMatches_boxes echo_collaborators
           (constant_array 3 3 0%float)
           [[[0.1; 0.2; 0.3; 0.4]]; [[0.5; 0.6; 0.7; 0.8]]]%float
           (Some ["a"; "b"]%string) 0.5%float (PyInt 3) None
           0 0 (constant_array 3 3 0%float)
           [mkBoundingBox (2, 1, 4, 1) 0.3%float 0 "a";
            mkBoundingBox (3, 0, 4, 1) 0.4%float 0 "a";
            mkBoundingBox (2, 1, 4, 1) 0.7%float 1 "b";
            mkBoundingBox (3, 0, 4, 1) 0.8%float 1 "b"]
           eq_refl eq_refl).
Defined.

(** Three detections, two of them labelled "a": the legend has one entry
    for "a", with the color of the last of the two. *)
Lemma plotDetections_legend_witness :
  exists fig,
    plotDetections ["teal"; "yellow"; "violet"]%string get_xywh
      (constant_array 12 12 0%float)
      [mkBoundingBox (0, 0, 2, 2) 0.9%float 4 "a";
       mkBoundingBox (5, 5, 2, 2) 0.8%float 1 "";
       mkBoundingBox (9, 9, 2, 2) 0.7%float 3 "a"] 2 true
    = ret fig /\
    fig_legend fig = Some [("a", "teal")]%string.
Proof.
  destruct (@plotDetections_legend (Z * Z * Z * Z) string
              ["teal"; "yellow"; "violet"]%string get_xywh
              (constant_array 12 12 0%float)
              [mkBoundingBox (0, 0, 2, 2) 0.9%float 4 "a";
               mkBoundingBox (5, 5, 2, 2) 0.8%float 1 "";
               mkBoundingBox (9, 9, 2, 2) 0.7%float 3 "a"] 2)
    as ((fig & E & _) & _).
  - discriminate.
  - exists fig. split; [exact E|].
    vm_compute in E. inversion E. reflexivity.
Defined.

(** A float count of 0.5 is refused for its type, not for being below 1. *)
Lemma findMatches_rejects_witness :
  @findMatches demo_collaborators (constant_array 4 4 0%float)
    [[[0%float]]] (Some ["cat"; "dog"]%string) 0.5%float (PyFloat 0.5%float)
    None
  = raise (TypeError "nObjects must be an integer").
Proof.
  apply (proj1 (@findMatches_rejects demo_collaborators
                  (constant_array 4 4 0%float) [[[0%float]]]
                  (Some ["cat"; "dog"]%string) 0.5%float (PyFloat 0.5%float)
                  None) 0.5%float);
    reflexivity.
Defined.

(** Two templates of the size of the image, with the values 0.9 and 0.3,
    and the threshold 0.6: two correlations, no peak search, and the one
    detection of the first template at the origin (3, 2) of the search
    box. *)
Lemma findMatches_full_size_templates_witness :
  @findMatches scalar_collaborators (constant_array 8 8 0%float)
    [[[0.9; 0.1]]; [[0.3; 0.1]]]%float (Some ["a"; "b"]%string) 0.6%float
    (PyInt 1) (Some (3, 2, 2, 1))
  = ([CallMatchTemplate [[0; 0]]%float [[0.9; 0.1]]%float;
      CallMatchTemplate [[0; 0]]%float [[0.3; 0.1]]%float],
     inr [mkBoundingBox (3, 2, 2, 1) 0.9%float 0 "a"]).
Proof.
  apply (@findMatches_full_size_templates scalar_collaborators
           (constant_array 8 8 0%float) [[[0.9; 0.1]]; [[0.3; 0.1]]]%float
           (Some ["a"; "b"]%string) 0.6%float (PyInt 1) (Some (3, 2, 2, 1))
           3 2 [[0; 0]]%float (fun template => hd 0%float (hd [] template))).
  - right. exists 1. split; [reflexivity | lia].
  - intros labels E. inversion E. reflexivity.
  - reflexivity.
  - intros template _. reflexivity.
Defined.

(** One template searched, then another: searched together, the detections
    of the second carry the index 1. *)
Lemma findMatches_app_witness :
  snd (@findMatches echo_collaborators (constant_array 3 3 0%float)
         ([[[0.1; 0.2; 0.3; 0.4]]] ++ [[[0.5; 0.6; 0.7; 0.8]]])%float
         (Some (["a"%string] ++ ["b"%string])) 0.5%float (PyInt 3) None)
  = inr ([mkBoundingBox (2, 1, 4, 1) 0.3%float 0 "a";
          mkBoundingBox (3, 0, 4, 1) 0.4%float 0 "a"]
         ++ map (reindex 1)
                [mkBoundingBox (2, 1, 4, 1) 0.7%float 0 "b";
                 mkBoundingBox (3, 0, 4, 1) 0.8%float 0 "b"]).
Proof.
  apply (@findMatches_app echo_collaborators (constant_array 3 3 0%float)
           [[[0.1; 0.2; 0.3; 0.4]]]%float [[[0.5; 0.6; 0.7; 0.8]]]%float
           (Some ["a"]%string) (Some ["b"]%string)).
  - right. exists ["a"]%string, ["b"]%string. repeat split.
  - reflexivity.
  - reflexivity.
Defined.

(** On a 1x4 image the box (-2, 0, 7, 1) is cropped to the last two
    columns. *)
Lemma crop_to_searchBox_negative_x_witness :
  crop_to_searchBox [[0.1; 0.2; 0.3; 0.4]]%float (Some (-2, 0, 7, 1))
  = (-2, 0, [[0.3; 0.4]]%float).
Proof.
  apply (@crop_to_searchBox_negative_x [[0.1; 0.2; 0.3; 0.4]]%float
           (-2) 0 7 1 4); try lia.
  repeat constructor.
Defined.
